(** * Loan-application listing: request filter, entity and projections

    A shallow embedding of [list-applications.dto.ts] and of the
    [Application] entity it imports.  Both files are declarative: the
    behaviour comes from decorators (class-validator, class-transformer,
    sequelize-typescript) attached to each property.  The embedding keeps
    that shape: every class is a table of property descriptors, and the
    decorator interpreters ([validate], [plainToClass], [instanceToPlain],
    [toRow], [fromRow]) run over those tables.  What the libraries and the
    database do beyond reading the decorators (rounding to the scale of a
    column, defaults, generated keys) is not part of it. *)

From stdpp Require Import base strings list gmap numbers.
From Stdlib Require Import ZArith QArith Qcanon Ascii String Lia.

Local Open Scope Z_scope.
Local Open Scope string_scope.

(** ** JavaScript values *)

(** A JavaScript number: finite values are kept exact. *)
Inductive JsNum :=
  | NaN
  | Infinite (negative : bool)
  | Finite (q : Qc).

(** The values that reach the decorated properties.  A [Date] carries its
    time value in milliseconds, [None] being the time value NaN
    ("Invalid Date").  Arrays come from repeated query parameters and hold
    strings. *)
Inductive JsValue :=
  | JsUndefined
  | JsNull
  | JsBoolean (b : bool)
  | JsNumber (n : JsNum)
  | JsString (s : string)
  | JsDate (t : option Z)
  | JsArray (xs : list string).

Definition JsInt (z : Z) : JsValue := JsNumber (Finite (Q2Qc (inject_Z z))).

(** ToBoolean. *)
Definition truthy (v : JsValue) : bool :=
  match v with
  | JsUndefined | JsNull => false
  | JsBoolean b => b
  | JsNumber NaN => false
  | JsNumber (Infinite _) => true
  | JsNumber (Finite q) => negb (Z.eqb (Qnum (this q)) 0)
  | JsString s => negb (String.eqb s "")
  | JsDate _ | JsArray _ => true
  end.

(** [a || b] *)
Definition js_or (a b : JsValue) : JsValue := if truthy a then a else b.

(** What the running program may raise. *)
Inductive Result (A : Type) :=
  | Return (a : A)
  | TypeError.
Arguments Return {A} a.
Arguments TypeError {A}.

(** ** Decimal rendering of integers and [padStart] *)

Definition digit_char (d : Z) : ascii :=
  ascii_of_nat (48 + Z.to_nat d)%nat.

(** Most significant digit first; [fuel] bounds the number of further
    digits. *)
Fixpoint digits_go (fuel : nat) (n : Z) (acc : string) : string :=
  let acc' := String (digit_char (n mod 10)) acc in
  match fuel with
  | O => acc'
  | S fuel' => if Z.ltb n 10 then acc' else digits_go fuel' (n / 10) acc'
  end.

Definition decimal (n : Z) : string :=
  digits_go (Z.to_nat (Z.log2 n)) n "".

(** The integers a JavaScript number holds exactly, one after the other,
    end at [Number.MAX_SAFE_INTEGER]; the keys of an INTEGER column are far
    below. *)
Definition MAX_SAFE_INTEGER : Z := 9007199254740991.

(** [Number.prototype.toString] on an integer: the decimal digits, after a
    minus sign if negative.  This is what JavaScript prints for the integers
    up to [MAX_SAFE_INTEGER] in size. *)
Definition Z_toString (n : Z) : string :=
  if Z.ltb n 0 then String "-" (decimal (- n)) else decimal n.

(** The first [n] characters of [fill] repeated for ever; [cur] is what is
    left of the current copy. *)
Fixpoint filler (fill cur : string) (n : nat) : string :=
  match n with
  | O => ""
  | S n' =>
      match cur with
      | String c rest => String c (filler fill rest n')
      | EmptyString =>
          match fill with
          | String c rest => String c (filler fill rest n')
          | EmptyString => ""
          end
      end
  end.

(** [String.prototype.padStart(maxLength, fillString)] *)
Definition padStart (s : string) (maxLength : nat) (fillString : string) : string :=
  if Nat.leb maxLength (String.length s) then s
  else if String.eqb fillString "" then s
  else filler fillString fillString (maxLength - String.length s)%nat ++ s.

(** The reading of the integer a digit string denotes. *)
Definition digit_value (c : ascii) : Z := Z.of_nat (nat_of_ascii c) - 48.

Fixpoint digits_value (acc : Z) (s : string) : Z :=
  match s with
  | EmptyString => acc
  | String c rest => digits_value (10 * acc + digit_value c) rest
  end.

Definition zeros (n : nat) : string :=
  string_of_list_ascii (replicate n "0"%char).

(** What the specification calls zero-padding: as many ["0"] in front as
    are missing to reach [width] characters, none when there are enough. *)
Definition zeroPad (k : Z) (width : nat) : string :=
  let s := Z_toString k in
  zeros (width - String.length s) ++ s.

(** ** The environment of the program

    The parts the program takes from its platform and from files of the
    repository that are not at hand: the engine's date parser behind
    [new Date(string)] (the time value in milliseconds, [None] for NaN;
    the empty string is no date for any engine), validator.js's [isEmail],
    and the members of the two enumerations imported from [src/enums]. *)
Record Runtime := {
  Date_parse : string -> option Z;
  Date_parse_empty : Date_parse "" = None;
  isEmail : string -> bool;
  ApplicationStatus_values : list string;
  TaskStatus_values : list string;
}.

Inductive Enum := ApplicationStatus | TaskStatus.

Definition Object_values (rt : Runtime) (e : Enum) : list string :=
  match e with
  | ApplicationStatus => ApplicationStatus_values rt
  | TaskStatus => TaskStatus_values rt
  end.

Definition includes (xs : list string) (x : string) : bool :=
  existsb (String.eqb x) xs.

(** ** Dates *)

(** The largest time value a [Date] holds. *)
Definition maxTime : Z := 8640000000000000.

(** [new Date(value).getTime()], [None] standing for NaN. *)
Definition Date_new (rt : Runtime) (value : JsValue) : option Z :=
  match value with
  | JsDate t => t
  | JsString s => Date_parse rt s
  | JsArray xs => Date_parse rt (String.concat "," xs)
  | JsUndefined => None
  | JsNull => Some 0
  | JsBoolean b => Some (if b then 1 else 0)
  | JsNumber (Finite q) =>
      let t := Z.quot (Qnum (this q)) (Z.pos (Qden (this q))) in
      if Z.leb (Z.abs t) maxTime then Some t else None
  | JsNumber _ => None
  end.

Definition isNaN_time (t : option Z) : bool :=
  match t with Some _ => false | None => true end.

(** ** Decorators *)

(** class-validator's checks, as attached in the two files. *)
Inductive Constraint :=
  | IsString
  | IsEmail
  | IsInt
  | IsNumber
  | IsDate
  | IsArray
  | IsEnum (entity : Enum) (each : bool).

(** sequelize's column types, as far as the entity uses them. *)
Inductive DataType :=
  | INTEGER
  | VIRTUAL
  | STRING (n : nat)
  | DECIMAL (precision scale : nat)
  | DATE
  | NamedType (name : string).

(** The options of [@Column]: [field] is the column of the table; without
    it sequelize uses the attribute's own name. *)
Record Column := {
  type : DataType;
  field : option string;
}.

(** One decorated property of a class: its class-validator checks, whether
    it carries [@IsOptional] and [@Exclude], and its [@Column]. *)
Record Property := {
  p_name : string;
  p_constraints : list Constraint;
  p_optional : bool;
  p_exclude : bool;
  p_column : option Column;
}.

Definition plain_property (name : string) (cs : list Constraint)
    (optional exclude : bool) (col : option Column) : Property :=
  {| p_name := name; p_constraints := cs; p_optional := optional;
     p_exclude := exclude; p_column := col |}.

Definition column (t : DataType) (f : string) : option Column :=
  Some {| type := t; field := Some f |}.

Definition check (rt : Runtime) (c : Constraint) (v : JsValue) : bool :=
  match c, v with
  | IsString, JsString _ => true
  | IsEmail, JsString s => isEmail rt s
  | IsInt, JsNumber (Finite q) => Pos.eqb (Qden (this q)) 1
  | IsNumber, JsNumber (Finite _) => true
  | IsDate, JsDate t => negb (isNaN_time t)
  | IsArray, JsArray _ => true
  | IsEnum e true, JsArray xs => forallb (includes (Object_values rt e)) xs
  | IsEnum e _, JsString s => includes (Object_values rt e) s
  | _, _ => false
  end.

Definition nullish (v : JsValue) : bool :=
  match v with JsUndefined | JsNull => true | _ => false end.

(** The constraints a value violates.  [@IsOptional] switches every check
    of the property off when the value is [null] or [undefined]. *)
Definition validateProperty (rt : Runtime) (p : Property) (v : JsValue)
    : list Constraint :=
  if p_optional p && nullish v then []
  else List.filter (fun c => negb (check rt c v)) (p_constraints p).

Definition property_of (obj : gmap string JsValue) (key : string) : JsValue :=
  default JsUndefined (obj !! key).

(** class-validator's [validate]: every decorated property is checked,
    none is skipped after a failure. *)
Definition validate (rt : Runtime) (cls : list Property)
    (obj : gmap string JsValue) : list (string * Constraint) :=
  flat_map (fun p => map (pair (p_name p))
                         (validateProperty rt p (property_of obj (p_name p))))
           cls.

Definition rejected (errors : list (string * Constraint)) : bool :=
  negb (Nat.eqb (List.length errors) 0).

Definition find_property (cls : list Property) (key : string) : option Property :=
  find (fun p => String.eqb (p_name p) key) cls.

Definition excluded (cls : list Property) (key : string) : bool :=
  match find_property cls key with
  | Some p => p_exclude p
  | None => false
  end.

(** class-transformer, class instance to plain object: the keys of the
    object without those marked [@Exclude].  [obj] is an object that has the
    properties of the class as keys of its own, as an object of one of the
    response classes has. *)
Definition instanceToPlain (cls : list Property) (obj : gmap string JsValue)
    : gmap string JsValue :=
  filter (fun kv => excluded cls kv.1 = false) obj.

(** [PickType(classRef, keys)]: the class with the picked properties, each
    with the decorators it has in [classRef].  The picked class is read for
    its validation and transformation decorators only. *)
Definition PickType (classRef : list Property) (keys : list string)
    : list Property :=
  List.filter (fun p => includes keys (p_name p)) classRef.

Definition fields (cls : list Property) : list string := map p_name cls.

(** ** list-applications.dto.ts *)

(** The query string as the framework hands it over: a parameter is absent,
    given once (a string) or, for [status] and [completed], possibly given
    several times (an array).  The date parameters are taken as given at
    most once. *)
Record PlainQuery := {
  raw_status : option JsValue;
  raw_completed : option JsValue;
  raw_minimumDate : option string;
  raw_maximumDate : option string;
}.

(** The decorators of [BrokerApplicationsListRequestDto] that validate. *)
Definition BrokerApplicationsListRequestDto : list Property := [
  plain_property "status" [IsArray; IsEnum ApplicationStatus true] true false None;
  plain_property "completed" [IsEnum TaskStatus false] true false None;
  plain_property "minimumDate" [IsDate] true false None;
  plain_property "maximumDate" [IsDate] true false None
].

(** [@Type(() => Date)] on a string: class-transformer builds
    [new Date(value)]. *)
Definition toType_Date (rt : Runtime) (value : string) : JsValue :=
  JsDate (Date_new rt (JsString value)).

(** The function of both [@Transform]s:
    [value && !isNaN(new Date(value).getTime()) ? new Date(value) : null] *)
Definition dateOrNull (rt : Runtime) (value : JsValue) : JsValue :=
  if truthy value && negb (isNaN_time (Date_new rt value))
  then JsDate (Date_new rt value)
  else JsNull.

(** class-transformer converts to the declared type first and runs the
    custom transformation on the result. *)
Definition transformDate (rt : Runtime) (value : string) : JsValue :=
  dateOrNull rt (toType_Date rt value).

Definition set_key (key : string) (v : option JsValue)
    (obj : gmap string JsValue) : gmap string JsValue :=
  match v with
  | Some v => <[key := v]> obj
  | None => obj
  end.

(** Plain query to class instance: a key of the query stays a key of the
    instance; an absent one stays absent. *)
Definition plainToClass (rt : Runtime) (plain : PlainQuery)
    : gmap string JsValue :=
  set_key "status" (raw_status plain)
    (set_key "completed" (raw_completed plain)
      (set_key "minimumDate" (transformDate rt <$> raw_minimumDate plain)
        (set_key "maximumDate" (transformDate rt <$> raw_maximumDate plain) ∅))).

(** What the validation pipe does with a query. *)
Definition validateQuery (rt : Runtime) (plain : PlainQuery)
    : list (string * Constraint) :=
  validate rt BrokerApplicationsListRequestDto (plainToClass rt plain).

(** The three messages imported from [src/common/constants/response-messages];
    their texts are not in the files at hand, their names are. *)
Inductive ResponseMessage :=
  | INVALID_MINIMUM_DATE_ERROR
  | INVALID_MAXIMUM_DATE_ERROR
  | MINIMUM_DATE_EXCEEDS_MAXIMUM_DATE_ERROR.

Definition BAD_REQUEST_ERRORS : list ResponseMessage := [
  INVALID_MINIMUM_DATE_ERROR;
  INVALID_MAXIMUM_DATE_ERROR;
  MINIMUM_DATE_EXCEEDS_MAXIMUM_DATE_ERROR
].

Inductive RequestError :=
  | DateRangeError (message : ResponseMessage).

(** Modelled from the spec: the comparison of the two dates is made by the
    handler of the list endpoint, which is not among the files at hand (only
    the message it answers with is, in [BAD_REQUEST_ERRORS]).  The
    specification: "After transformation, if both are present and
    minimum > maximum, fail with DateRangeError carrying the message
    MINIMUM_DATE_EXCEEDS_MAXIMUM_DATE_ERROR."  It runs on the instance
    [plainToClass] produced. *)
Definition checkDateRange (dto : gmap string JsValue) : option RequestError :=
  match dto !! "minimumDate", dto !! "maximumDate" with
  | Some (JsDate (Some minimum)), Some (JsDate (Some maximum)) =>
      if Z.ltb maximum minimum
      then Some (DateRangeError MINIMUM_DATE_EXCEEDS_MAXIMUM_DATE_ERROR)
      else None
  | _, _ => None
  end.

(** Modelled from the spec: the validator at the boundary that answers with
    one of the two other messages is not among the files at hand either.
    The specification: "If a value was supplied but parsing failed the
    request-level validation must still reject with a date-specific error
    (INVALID_MINIMUM_DATE_ERROR / INVALID_MAXIMUM_DATE_ERROR)", and of each
    date parameter: "if unparseable and non-empty, request rejected".
    [supplied] is the parameter as the query has it, [normalized] what the
    instance [plainToClass] produced holds under the key: [null] where
    parsing failed. *)
Definition checkDateSupplied (message : ResponseMessage)
    (supplied : option string) (normalized : option JsValue)
    : option ResponseMessage :=
  match supplied, normalized with
  | Some value, Some JsNull =>
      if String.eqb value "" then None else Some message
  | _, _ => None
  end.

Definition checkMinimumDate (rt : Runtime) (plain : PlainQuery)
    : option ResponseMessage :=
  checkDateSupplied INVALID_MINIMUM_DATE_ERROR (raw_minimumDate plain)
    (plainToClass rt plain !! "minimumDate").

Definition checkMaximumDate (rt : Runtime) (plain : PlainQuery)
    : option ResponseMessage :=
  checkDateSupplied INVALID_MAXIMUM_DATE_ERROR (raw_maximumDate plain)
    (plainToClass rt plain !! "maximumDate").

(** ** application.entity.ts *)

Module Application.

Definition required := false.
Definition optional := true.
Definition exposed := false.
Definition Exclude := true.

(** The properties of the class in the order of the file.  [broker] and
    [task] are associations and have no column of their own. *)
Definition properties : list Property := [
  plain_property "id" [] required Exclude
    (Some {| type := INTEGER; field := None |});
  plain_property "applicationId" [] required exposed
    (Some {| type := VIRTUAL; field := None |});
  plain_property "applicantName" [IsString] required exposed
    (column (STRING 50) "applicant_name");
  plain_property "applicantEmail" [IsEmail] required exposed
    (column (STRING 255) "applicant_email");
  plain_property "applicantMobilePhoneNumber" [IsString] required exposed
    (column (STRING 20) "applicant_mobile_phone_number");
  plain_property "applicantAddress" [IsString] required exposed
    (column (STRING 50) "applicant_address");
  plain_property "broker" [] required exposed None;
  plain_property "brokerId" [IsInt] optional exposed
    (column INTEGER "broker_id");
  plain_property "annualIncomeBeforeTax" [IsNumber] required exposed
    (column (DECIMAL 10 2) "annual_income_before_tax");
  plain_property "incomingAddress" [IsString] required exposed
    (column (STRING 50) "incoming_address");
  plain_property "incomingDeposit" [IsNumber] required exposed
    (column (DECIMAL 10 2) "incoming_deposit");
  plain_property "incomingPrice" [IsNumber] required exposed
    (column (DECIMAL 10 2) "incoming_price");
  plain_property "incomingStampDuty" [IsNumber] required exposed
    (column (DECIMAL 10 2) "incoming_stamp_duty");
  plain_property "loanAmount" [IsNumber] required exposed
    (column (DECIMAL 10 2) "loan_amount");
  plain_property "loanDuration" [IsNumber] required exposed
    (column INTEGER "loan_duration");
  plain_property "monthlyExpenses" [IsNumber] required exposed
    (column (DECIMAL 10 2) "monthly_expenses");
  plain_property "outgoingAddress" [IsString] required exposed
    (column (STRING 50) "outgoing_address");
  plain_property "outgoingMortgage" [IsNumber] required exposed
    (column (DECIMAL 10 2) "outgoing_valuation");
  plain_property "outgoingValuation" [IsNumber] required exposed
    (column (DECIMAL 10 2) "outgoing_valuation");
  plain_property "savingsContribution" [IsNumber] required exposed
    (column (DECIMAL 10 2) "savings_contribution");
  plain_property "status" [IsEnum ApplicationStatus false] required exposed
    (Some {| type := NamedType "enum_application_status"; field := None |});
  plain_property "task" [] required exposed None;
  plain_property "createdAt" [IsDate] required Exclude
    (column DATE "created_at");
  plain_property "updatedAt" [IsDate] optional Exclude
    (column DATE "updated_at")
].

(** An instance whose attributes hold values of the types the class
    declares.  [id] is [None] until the row has a key. *)
Record Instance := {
  id : option Z;
  applicantName : string;
  applicantEmail : option string;
  applicantMobilePhoneNumber : string;
  applicantAddress : string;
  brokerId : option Z;
  annualIncomeBeforeTax : Qc;
  incomingAddress : string;
  incomingDeposit : Qc;
  incomingPrice : Qc;
  incomingStampDuty : Qc;
  loanAmount : Qc;
  loanDuration : Z;
  monthlyExpenses : Qc;
  outgoingAddress : string;
  outgoingMortgage : Qc;
  outgoingValuation : Qc;
  savingsContribution : Qc;
  status : string;
  createdAt : Z;
  updatedAt : option Z;
}.

Definition number (q : Qc) : JsValue := JsNumber (Finite q).
Definition date (t : Z) : JsValue := JsDate (Some t).

(** The instance as the object sequelize keeps ([dataValues]). *)
Definition dataValues (this : Instance) : gmap string JsValue :=
  set_key "id" (JsInt <$> id this)
  (<["applicantName" := JsString (applicantName this)]>
  (set_key "applicantEmail" (JsString <$> applicantEmail this)
  (<["applicantMobilePhoneNumber" := JsString (applicantMobilePhoneNumber this)]>
  (<["applicantAddress" := JsString (applicantAddress this)]>
  (set_key "brokerId" (JsInt <$> brokerId this)
  (<["annualIncomeBeforeTax" := number (annualIncomeBeforeTax this)]>
  (<["incomingAddress" := JsString (incomingAddress this)]>
  (<["incomingDeposit" := number (incomingDeposit this)]>
  (<["incomingPrice" := number (incomingPrice this)]>
  (<["incomingStampDuty" := number (incomingStampDuty this)]>
  (<["loanAmount" := number (loanAmount this)]>
  (<["loanDuration" := JsInt (loanDuration this)]>
  (<["monthlyExpenses" := number (monthlyExpenses this)]>
  (<["outgoingAddress" := JsString (outgoingAddress this)]>
  (<["outgoingMortgage" := number (outgoingMortgage this)]>
  (<["outgoingValuation" := number (outgoingValuation this)]>
  (<["savingsContribution" := number (savingsContribution this)]>
  (<["status" := JsString (status this)]>
  (<["createdAt" := date (createdAt this)]>
  (set_key "updatedAt" (date <$> updatedAt this) ∅)))))))))))))))))))).

(** The getter of the virtual column:
    [const id = this.getDataValue('id');
     return `A${id.toString().padStart(5, '0')}`;]
    [toString] of [undefined] raises. *)
Definition applicationId (this : Instance) : Result string :=
  match id this with
  | None => TypeError
  | Some id => Return ("A" ++ padStart (Z_toString id) 5 "0")
  end.

(** The column of the table an attribute is stored in. *)
Definition column_name (p : Property) : option string :=
  match p_column p with
  | Some {| type := VIRTUAL |} => None
  | Some c => Some (default (p_name p) (field c))
  | None => None
  end.

(** Attribute values to the row written: sequelize renames each
    attribute that has a value to its field, in the order of the
    attributes.  Only the naming is followed: a value goes to its column as
    it is. *)
Definition toRow (values : gmap string JsValue) : gmap string JsValue :=
  foldl (fun row p =>
           match column_name p, values !! p_name p with
           | _, Some JsUndefined => row
           | Some col, Some v => <[col := v]> row
           | _, _ => row
           end) ∅ properties.

(** The row read to attribute values: every attribute selects its
    field ([SELECT field AS attribute]).  Again only the naming is
    followed. *)
Definition fromRow (row : gmap string JsValue) : gmap string JsValue :=
  foldl (fun values p =>
           match column_name p with
           | Some col => set_key (p_name p) (row !! col) values
           | None => values
           end) ∅ properties.

Definition save (this : Instance) : gmap string JsValue :=
  toRow (dataValues this).

(** The values of a column of the table; a numeric column holds exact
    decimals, and NULLs do not count. *)
Definition column_values (table : list (gmap string JsValue)) (col : string)
    : list Qc :=
  omap (fun row => match row !! col with
                   | Some (JsNumber (Finite q)) => Some q
                   | _ => None
                   end) table.

Definition sum (xs : list Qc) : Qc := foldr Qcplus (Q2Qc 0) xs.

Definition count (xs : list Qc) : Qc :=
  Q2Qc (inject_Z (Z.of_nat (List.length xs))).

(** SQL's [AVG] over a DECIMAL column as it reaches the program: without a
    value the result is NULL; otherwise it is a numeric value, which the
    database driver hands over as text.  [numeric_text] is the text the
    database writes for a numeric value. *)
Definition AVG (numeric_text : Qc -> string)
    (table : list (gmap string JsValue)) (col : string) : JsValue :=
  match column_values table col with
  | [] => JsNull
  | xs => JsString (numeric_text (sum xs / count xs)%Qc)
  end.

(** [findOne] with an aggregate as its only attribute: the query always
    has one row. *)
Definition findOne_AVG (numeric_text : Qc -> string)
    (table : list (gmap string JsValue))
    (col alias : string) : option (gmap string JsValue) :=
  Some {[ alias := AVG numeric_text table col ]}.

(** [const result = await Application.findOne(...);
     const res = result?.get('averageLoanAmount') || 0;
     return res as number;]
    The cast changes nothing at run time. *)
Definition getAverageLoanAmount (numeric_text : Qc -> string)
    (table : list (gmap string JsValue)) : JsValue :=
  let result :=
    findOne_AVG numeric_text table "loan_amount" "averageLoanAmount" in
  js_or (match result with
         | Some r => property_of r "averageLoanAmount"
         | None => JsUndefined
         end)
        (JsInt 0).

End Application.

(** What the specification calls the mean of a column, said without the
    sum and the count of the program: the value from which the amounts
    deviate by nothing in total. *)
Definition total_deviation (m : Qc) (xs : list Qc) : Qc :=
  fold_left (fun acc x => (acc + (x - m))%Qc) xs (Q2Qc 0).

Definition is_mean (xs : list Qc) (m : Qc) : Prop :=
  xs <> [] /\ total_deviation m xs = Q2Qc 0.

(** ** The response shapes of list-applications.dto.ts *)

Definition ApplicationDto : list Property :=
  PickType Application.properties [
    "applicantName"; "applicantEmail"; "applicantMobilePhoneNumber";
    "applicantAddress"; "annualIncomeBeforeTax"; "incomingAddress";
    "incomingDeposit"; "incomingPrice"; "incomingStampDuty"; "loanAmount";
    "loanDuration"; "monthlyExpenses"; "outgoingAddress"; "outgoingMortgage";
    "outgoingValuation"; "savingsContribution"
  ].

Definition BrokerApplicationDto : list Property :=
  PickType Application.properties [
    "id"; "applicationId"; "createdAt"; "status"; "loanAmount";
    "loanDuration"; "applicantName"; "incomingAddress"; "outgoingAddress"
  ].

(** ** One environment to run the program in *)

Definition is_digit (c : ascii) : bool :=
  let n := nat_of_ascii c in Nat.leb 48 n && Nat.leb n 57.

Definition isLeapYear (y : Z) : bool :=
  Z.eqb (y mod 4) 0 && (negb (Z.eqb (y mod 100) 0) || Z.eqb (y mod 400) 0).

Definition daysInMonth (y m : Z) : Z :=
  if Z.eqb m 2 then (if isLeapYear y then 29 else 28)
  else if Z.eqb m 4 || Z.eqb m 6 || Z.eqb m 9 || Z.eqb m 11 then 30
  else 31.

(** Days from 1970-01-01 to the given day of the Gregorian calendar. *)
Definition daysFromCivil (y m d : Z) : Z :=
  let y' := if Z.leb m 2 then y - 1 else y in
  let era := y' / 400 in
  let yoe := y' - era * 400 in
  let mp := if Z.ltb 2 m then m - 3 else m + 9 in
  let doy := (153 * mp + 2) / 5 + d - 1 in
  let doe := yoe * 365 + yoe / 4 - yoe / 100 + doy in
  era * 146097 + doe - 719468.

Definition msPerDay : Z := 86400000.

(** The date-only form [YYYY-MM-DD] of ECMAScript's date-time string
    format, read as midnight UTC.  Every other string is taken as
    unparseable. *)
Definition Date_parse_iso (s : string) : option Z :=
  match s with
  | String y1 (String y2 (String y3 (String y4 (String "-"
      (String m1 (String m2 (String "-" (String d1 (String d2 "")))))))))
    =>
      if forallb is_digit [y1; y2; y3; y4; m1; m2; d1; d2] then
        let y := digits_value 0 (String y1 (String y2 (String y3 (String y4 "")))) in
        let m := digits_value 0 (String m1 (String m2 "")) in
        let d := digits_value 0 (String d1 (String d2 "")) in
        if Z.leb 1 m && Z.leb m 12 && Z.leb 1 d && Z.leb d (daysInMonth y m)
        then Some (daysFromCivil y m d * msPerDay)
        else None
      else None
  | _ => None
  end.

Fixpoint count_char (c : ascii) (s : string) : nat :=
  match s with
  | EmptyString => O
  | String x rest => ((if Ascii.eqb x c then 1 else 0) + count_char c rest)%nat
  end.

(** A plain test for the shape [local@domain.tld], standing in for
    validator.js where an example needs a concrete answer. *)
Definition isEmail_basic (s : string) : bool :=
  match index 0 "@" s with
  | Some i =>
      let domain := substring (S i) (String.length s - S i) s in
      Nat.ltb 0 i && Nat.eqb (count_char "@" s) 1
      && Nat.eqb (count_char " " s) 0
      && match index 0 "." domain with
         | Some j => Nat.ltb 0 j && Nat.ltb (S j) (String.length domain)
         | None => false
         end
  | None => false
  end.

(** Modelled from the spec: the enumerations of [src/enums] are not among
    the files at hand.  The specification names [Pending], [InProgress],
    [Completed] and [OnHold] as application statuses, and [Completed],
    [Pending] and [InProgress] as task statuses. *)
Definition example_runtime : Runtime := {|
  Date_parse := Date_parse_iso;
  Date_parse_empty := eq_refl;
  isEmail := isEmail_basic;
  ApplicationStatus_values := ["Pending"; "InProgress"; "Completed"; "OnHold"];
  TaskStatus_values := ["Pending"; "InProgress"; "Completed"];
|}.

Definition example_application : Application.Instance := {|
  Application.id := Some 7;
  Application.applicantName := "Ada Lovelace";
  Application.applicantEmail := Some "ada@example.com";
  Application.applicantMobilePhoneNumber := "0400000000";
  Application.applicantAddress := "1 High Street";
  Application.brokerId := Some 1;
  Application.annualIncomeBeforeTax := Q2Qc 90000;
  Application.incomingAddress := "2 New Road";
  Application.incomingDeposit := Q2Qc 50000;
  Application.incomingPrice := Q2Qc 500000;
  Application.incomingStampDuty := Q2Qc 20000;
  Application.loanAmount := Q2Qc 300000;
  Application.loanDuration := 360;
  Application.monthlyExpenses := Q2Qc 2500;
  Application.outgoingAddress := "3 Old Lane";
  Application.outgoingMortgage := Q2Qc 100000;
  Application.outgoingValuation := Q2Qc 400000;
  Application.savingsContribution := Q2Qc 30000;
  Application.status := "Pending";
  Application.createdAt := 1704067200000;
  Application.updatedAt := None;
|}.

(** A numeric value written the way a database writes an average: the
    integer part, a point and sixteen decimals. *)
Definition example_numeric_text (q : Qc) : string :=
  let scale := 10 ^ 16 in
  let scaled := Z.abs (Qnum (this q)) * scale / Z.pos (Qden (this q)) in
  (if Z.ltb (Qnum (this q)) 0 then "-" else "")
  ++ Z_toString (scaled / scale) ++ "."
  ++ padStart (Z_toString (scaled mod scale)) 16 "0".



(** Whether a string consists of decimal digits only. *)
Definition all_digits (s : string) : bool :=
  forallb is_digit (list_ascii_of_string s).

(** The instance with another key. *)
Definition with_key (this : Application.Instance) (k : Z) : Application.Instance := {|
  Application.id := Some k;
  Application.applicantName := Application.applicantName this;
  Application.applicantEmail := Application.applicantEmail this;
  Application.applicantMobilePhoneNumber := Application.applicantMobilePhoneNumber this;
  Application.applicantAddress := Application.applicantAddress this;
  Application.brokerId := Application.brokerId this;
  Application.annualIncomeBeforeTax := Application.annualIncomeBeforeTax this;
  Application.incomingAddress := Application.incomingAddress this;
  Application.incomingDeposit := Application.incomingDeposit this;
  Application.incomingPrice := Application.incomingPrice this;
  Application.incomingStampDuty := Application.incomingStampDuty this;
  Application.loanAmount := Application.loanAmount this;
  Application.loanDuration := Application.loanDuration this;
  Application.monthlyExpenses := Application.monthlyExpenses this;
  Application.outgoingAddress := Application.outgoingAddress this;
  Application.outgoingMortgage := Application.outgoingMortgage this;
  Application.outgoingValuation := Application.outgoingValuation this;
  Application.savingsContribution := Application.savingsContribution this;
  Application.status := Application.status this;
  Application.createdAt := Application.createdAt this;
  Application.updatedAt := Application.updatedAt this;
|}.

(** What passes the checks of [status]: nothing, [null], or an array whose
    elements are all members of [ApplicationStatus]. *)
Definition status_acceptable (rt : Runtime) (raw : option JsValue) : Prop :=
  match raw with
  | None | Some JsUndefined | Some JsNull => True
  | Some (JsArray xs) => Forall (fun x => In x (ApplicationStatus_values rt)) xs
  | Some _ => False
  end.

(** What passes the check of [completed]: nothing, [null], or one string
    that is a member of [TaskStatus]. *)
Definition completed_acceptable (rt : Runtime) (raw : option JsValue) : Prop :=
  match raw with
  | None | Some JsUndefined | Some JsNull => True
  | Some (JsString v) => In v (TaskStatus_values rt)
  | Some _ => False
  end.

Example parse_2024_01_01 : Date_parse_iso "2024-01-01" = Some 1704067200000.
Proof. reflexivity. Qed.

Example parse_2023_01_01 : Date_parse_iso "2023-01-01" = Some 1672531200000.
Proof. reflexivity. Qed.

Example parse_not_a_date : Date_parse_iso "not-a-date" = None.
Proof. reflexivity. Qed.

Example email_examples :
  isEmail_basic "ada@example.com" = true /\ isEmail_basic "not-an-email" = false
  /\ isEmail_basic "" = false.
Proof. repeat split; reflexivity. Qed.

Example decimal_examples :
  Z_toString 7 = "7" /\ Z_toString 0 = "0" /\ Z_toString 123456 = "123456"
  /\ Z_toString (-5) = "-5" /\ Z_toString 1000 = "1000" /\ Z_toString 99999 = "99999".
Proof. repeat split; reflexivity. Qed.

Example padStart_examples :
  padStart "7" 5 "0" = "00007" /\ padStart "123456" 5 "0" = "123456"
  /\ padStart "abc" 10 "xy" = "xyxyxyxabc" /\ padStart "abc" 6 "" = "abc".
Proof. repeat split; reflexivity. Qed.

(** * Properties *)

(** ** Decimal rendering *)

Lemma append_cons (c : ascii) (s t : string) :
  String c s ++ t = String c (s ++ t).
Proof. reflexivity. Qed.

Lemma append_assoc (s t u : string) : (s ++ t) ++ u = s ++ (t ++ u).
Proof.
  induction s as [|c s IH]; [reflexivity|].
  rewrite !append_cons. f_equal. exact IH.
Qed.

Lemma string_length_app (s t : string) :
  String.length (s ++ t) = (String.length s + String.length t)%nat.
Proof. induction s as [|c s IH]; simpl; [reflexivity | now rewrite IH]. Qed.

Lemma digits_go_acc (fuel : nat) : forall (n : Z) (acc : string),
  digits_go fuel n acc = digits_go fuel n "" ++ acc.
Proof.
  induction fuel as [|fuel IH]; intros n acc; simpl; [reflexivity|].
  destruct (Z.ltb n 10); [reflexivity|].
  rewrite (IH _ (String _ acc)), (IH _ (String _ "")).
  rewrite append_assoc. reflexivity.
Qed.

Lemma digits_go_length_step (fuel : nat) (n : Z) :
  Z.ltb n 10 = false ->
  String.length (digits_go (S fuel) n "")
  = S (String.length (digits_go fuel (n / 10) "")).
Proof.
  intros Hn. simpl. rewrite Hn, digits_go_acc, string_length_app. simpl. lia.
Qed.

(** With fuel enough for the size of [n], a number below [10^k] has at most
    [k] digits. *)
Lemma digits_go_length_le (fuel : nat) : forall (n : Z) (k : nat),
  0 <= n < 10 ^ Z.of_nat (S k) -> n < 10 ^ Z.of_nat (S fuel) ->
  (String.length (digits_go fuel n "") <= S k)%nat.
Proof.
  induction fuel as [|fuel IH]; intros n k Hk Hf.
  - simpl. lia.
  - destruct (Z.ltb n 10) eqn:Hn.
    + simpl. rewrite Hn. simpl. lia.
    + rewrite digits_go_length_step by assumption.
      apply Z.ltb_ge in Hn.
      destruct k as [|k].
      { change (10 ^ Z.of_nat 1) with 10 in Hk. lia. }
      apply le_n_S, IH.
      * rewrite Nat2Z.inj_succ, Z.pow_succ_r in Hk by lia.
        split; [apply Z.div_pos; lia | apply Z.div_lt_upper_bound; lia].
      * rewrite Nat2Z.inj_succ, Z.pow_succ_r in Hf by lia.
        apply Z.div_lt_upper_bound; lia.
Qed.

(** A number of at least [10^k] has more than [k] digits. *)
Lemma digits_go_length_ge (fuel : nat) : forall (n : Z) (k : nat),
  10 ^ Z.of_nat k <= n -> n < 10 ^ Z.of_nat (S fuel) ->
  (S k <= String.length (digits_go fuel n ""))%nat.
Proof.
  induction fuel as [|fuel IH]; intros n k Hk Hf.
  - destruct k as [|k]; [simpl; lia|].
    change (10 ^ Z.of_nat 1) with 10 in Hf.
    rewrite Nat2Z.inj_succ, Z.pow_succ_r in Hk by lia.
    assert (0 < 10 ^ Z.of_nat k) by (apply Z.pow_pos_nonneg; lia). lia.
  - destruct (Z.ltb n 10) eqn:Hn.
    + apply Z.ltb_lt in Hn. destruct k as [|k]; [simpl; rewrite (proj2 (Z.ltb_lt _ _) Hn); simpl; lia|].
      rewrite Nat2Z.inj_succ, Z.pow_succ_r in Hk by lia.
      assert (0 < 10 ^ Z.of_nat k) by (apply Z.pow_pos_nonneg; lia). lia.
    + rewrite digits_go_length_step by assumption.
      destruct k as [|k]; [lia|].
      apply le_n_S, IH.
      * rewrite Nat2Z.inj_succ, Z.pow_succ_r in Hk by lia.
        apply Z.div_le_lower_bound; lia.
      * rewrite Nat2Z.inj_succ, Z.pow_succ_r in Hf by lia.
        apply Z.div_lt_upper_bound; lia.
Qed.

Lemma decimal_fuel (n : Z) :
  0 <= n -> n < 10 ^ Z.of_nat (S (Z.to_nat (Z.log2 n))).
Proof.
  intros Hn.
  destruct (Z.eq_dec n 0) as [->|Hne].
  { simpl. lia. }
  assert (Hlog : 0 <= Z.log2 n) by apply Z.log2_nonneg.
  rewrite Nat2Z.inj_succ, Z2Nat.id by assumption.
  apply Z.lt_le_trans with (2 ^ Z.succ (Z.log2 n)).
  - apply Z.log2_spec. lia.
  - apply Z.pow_le_mono_l. lia.
Qed.

Lemma decimal_length_le (n : Z) (k : nat) :
  0 <= n < 10 ^ Z.of_nat (S k) -> (String.length (decimal n) <= S k)%nat.
Proof.
  intros Hn. unfold decimal.
  apply digits_go_length_le; [assumption | apply decimal_fuel; lia].
Qed.

Lemma decimal_length_ge (n : Z) (k : nat) :
  10 ^ Z.of_nat k <= n -> (S k <= String.length (decimal n))%nat.
Proof.
  intros Hn. unfold decimal.
  assert (0 < 10 ^ Z.of_nat k) by (apply Z.pow_pos_nonneg; lia).
  apply digits_go_length_ge; [assumption | apply decimal_fuel; lia].
Qed.

Lemma digits_value_app (s t : string) : forall a : Z,
  digits_value a (s ++ t) = digits_value (digits_value a s) t.
Proof.
  induction s as [|c s IH]; intros a; [reflexivity|].
  rewrite append_cons. simpl. apply IH.
Qed.

Lemma digit_value_char (d : Z) : 0 <= d < 10 -> digit_value (digit_char d) = d.
Proof.
  intros Hd. unfold digit_value, digit_char.
  rewrite nat_ascii_embedding by lia. lia.
Qed.

(** Reading the digits back gives the number. *)
Lemma digits_go_value (fuel : nat) : forall n : Z,
  0 <= n < 10 ^ Z.of_nat (S fuel) -> digits_value 0 (digits_go fuel n "") = n.
Proof.
  induction fuel as [|fuel IH]; intros n Hn.
  - change (10 ^ Z.of_nat 1) with 10 in Hn. simpl.
    rewrite Z.mod_small by lia. rewrite digit_value_char; lia.
  - simpl. destruct (Z.ltb n 10) eqn:H10.
    + apply Z.ltb_lt in H10. simpl.
      rewrite Z.mod_small by lia. rewrite digit_value_char; lia.
    + apply Z.ltb_ge in H10.
      rewrite digits_go_acc, digits_value_app, IH.
      * simpl. rewrite digit_value_char by (apply Z.mod_pos_bound; lia).
        pose proof (Z.div_mod n 10). lia.
      * rewrite Nat2Z.inj_succ, Z.pow_succ_r in Hn by lia.
        split; [apply Z.div_pos; lia | apply Z.div_lt_upper_bound; lia].
Qed.

Lemma decimal_value (n : Z) : 0 <= n -> digits_value 0 (decimal n) = n.
Proof.
  intros Hn. unfold decimal. apply digits_go_value.
  split; [assumption | apply decimal_fuel; assumption].
Qed.

(** ** [padStart] with a one-character filler *)

Lemma filler_zero (n : nat) : forall cur : string,
  cur = "0" \/ cur = "" -> filler "0" cur n = zeros n.
Proof.
  induction n as [|n IH]; intros cur Hcur; [reflexivity|].
  destruct Hcur as [-> | ->]; simpl; unfold zeros in *; simpl;
    f_equal; apply IH; auto.
Qed.

Lemma padStart_zero (s : string) (width : nat) :
  padStart s width "0" = zeros (width - String.length s) ++ s.
Proof.
  unfold padStart. destruct (Nat.leb width (String.length s)) eqn:Hle.
  - apply Nat.leb_le in Hle.
    replace (width - String.length s)%nat with O by lia. reflexivity.
  - simpl. rewrite filler_zero by auto. reflexivity.
Qed.

Lemma zeros_length (n : nat) : String.length (zeros n) = n.
Proof.
  induction n as [|n IH]; [reflexivity|]. unfold zeros in *. simpl. now rewrite IH.
Qed.

Lemma digits_value_zeros (n : nat) (s : string) :
  digits_value 0 (zeros n ++ s) = digits_value 0 s.
Proof.
  induction n as [|n IH]; [reflexivity|].
  change (zeros (S n) ++ s) with (String "0" (zeros n ++ s)).
  simpl. exact IH.
Qed.

Lemma Z_toString_nonneg (k : Z) : 0 <= k -> Z_toString k = decimal k.
Proof.
  intros Hk. unfold Z_toString.
  destruct (Z.ltb k 0) eqn:Hlt; [apply Z.ltb_lt in Hlt; lia | reflexivity].
Qed.

Lemma applicationId_unfold (this : Application.Instance) (k : Z) :
  Application.id this = Some k ->
  Application.applicationId this
  = Return ("A" ++ zeros (5 - String.length (Z_toString k)) ++ Z_toString k).
Proof.
  intros Hid. unfold Application.applicationId. rewrite Hid.
  now rewrite padStart_zero.
Qed.

(** ** The display identifier *)

(** C6: for an application whose key is set, [applicationId] is ["A"]
    followed by the key zero-padded to five characters.  The padding only
    adds characters in front of the key's digits: a key that already has five
    characters or more (every key from 100000 on) comes out in full, a
    smaller non-negative key as exactly five digits that read back as the
    key.  7 gives [A00007], 123456 gives [A123456].  The value depends on the
    key alone: instances with the same key have the same identifier. *)
Theorem applicationId_is_padded_key (this : Application.Instance) (k : Z) :
  Application.id this = Some k ->
  Application.applicationId this = Return ("A" ++ zeroPad k 5)
  /\ (exists n : nat,
        Application.applicationId this
        = Return ("A" ++ zeros n ++ Z_toString k))
  /\ ((5 <= String.length (Z_toString k))%nat ->
      Application.applicationId this = Return ("A" ++ Z_toString k))
  /\ (100000 <= k ->
      Application.applicationId this = Return ("A" ++ Z_toString k))
  /\ (0 <= k < 100000 ->
      exists digits : string,
        Application.applicationId this = Return ("A" ++ digits)
        /\ String.length digits = 5%nat
        /\ digits_value 0 digits = k)
  /\ (k = 7 -> Application.applicationId this = Return "A00007")
  /\ (k = 123456 -> Application.applicationId this = Return "A123456")
  /\ (forall other : Application.Instance,
        Application.id other = Some k ->
        Application.applicationId other = Application.applicationId this).
Proof.
  intros Hid. pose proof (applicationId_unfold this k Hid) as Hthis.
  assert (Hlong : (5 <= String.length (Z_toString k))%nat ->
                  Application.applicationId this = Return ("A" ++ Z_toString k)).
  { intros Hlen. rewrite Hthis.
    replace (5 - String.length (Z_toString k))%nat with O by lia. reflexivity. }
  repeat split.
  - exact Hthis.
  - eexists. exact Hthis.
  - exact Hlong.
  - intros Hk. apply Hlong. rewrite Z_toString_nonneg by lia.
    pose proof (decimal_length_ge k 5) as Hge.
    change (10 ^ Z.of_nat 5) with 100000 in Hge. specialize (Hge Hk). lia.
  - intros Hk. rewrite Z_toString_nonneg in Hthis by lia.
    exists (zeros (5 - String.length (decimal k)) ++ decimal k).
    pose proof (decimal_length_le k 4) as Hle.
    change (10 ^ Z.of_nat 5) with 100000 in Hle. specialize (Hle Hk).
    repeat split.
    + exact Hthis.
    + rewrite string_length_app, zeros_length. lia.
    + rewrite digits_value_zeros. apply decimal_value. lia.
  - intros ->. rewrite Hthis. reflexivity.
  - intros ->. rewrite Hthis. reflexivity.
  - intros other Hother. rewrite Hthis. apply applicationId_unfold, Hother.
Qed.

Lemma applicationId_is_padded_key_witness :
  Application.id example_application = Some 7
  /\ Application.applicationId example_application = Return ("A" ++ zeroPad 7 5).
Proof.
  split; [reflexivity|].
  exact (proj1 (applicationId_is_padded_key example_application 7 eq_refl)).
Defined.

(** Without a key the getter raises instead of answering. *)
Lemma applicationId_without_key (this : Application.Instance) :
  Application.id this = None -> Application.applicationId this = TypeError.
Proof. intros Hid. unfold Application.applicationId. now rewrite Hid. Qed.

(** ** The query of the list endpoint *)

Ltac lookup_query plain :=
  destruct plain as [[?|] [?|] [?|] [?|]]; unfold plainToClass, set_key; simpl;
  repeat first [ rewrite lookup_insert_eq | rewrite lookup_insert_ne by done
               | rewrite lookup_empty ];
  reflexivity.

Lemma plainToClass_status (rt : Runtime) (plain : PlainQuery) :
  plainToClass rt plain !! "status" = raw_status plain.
Proof. lookup_query plain. Qed.

Lemma plainToClass_completed (rt : Runtime) (plain : PlainQuery) :
  plainToClass rt plain !! "completed" = raw_completed plain.
Proof. lookup_query plain. Qed.

Lemma plainToClass_minimumDate (rt : Runtime) (plain : PlainQuery) :
  plainToClass rt plain !! "minimumDate"
  = transformDate rt <$> raw_minimumDate plain.
Proof. lookup_query plain. Qed.

Lemma plainToClass_maximumDate (rt : Runtime) (plain : PlainQuery) :
  plainToClass rt plain !! "maximumDate"
  = transformDate rt <$> raw_maximumDate plain.
Proof. lookup_query plain. Qed.

Lemma dateOrNull_string (rt : Runtime) (s : string) :
  dateOrNull rt (JsString s)
  = match Date_parse rt s with
    | Some t => JsDate (Some t)
    | None => JsNull
    end.
Proof.
  unfold dateOrNull. simpl.
  destruct (String.eqb_spec s "") as [-> | Hs]; simpl.
  - now rewrite Date_parse_empty.
  - destruct (Date_parse rt s); reflexivity.
Qed.

Lemma transformDate_string (rt : Runtime) (s : string) :
  transformDate rt s
  = match Date_parse rt s with
    | Some t => JsDate (Some t)
    | None => JsNull
    end.
Proof.
  unfold transformDate, toType_Date, dateOrNull. simpl.
  destruct (Date_parse rt s); reflexivity.
Qed.

(** C8: the transformation of [minimumDate] and of [maximumDate] turns a
    string that does not parse as a date, the empty string included, into
    [null], and a string that parses into the [Date] of the parsed time.  It
    does so as the function of [@Transform] alone and after the conversion of
    [@Type]; the value it gives is the one the instance holds under the
    parameter's key.  It never raises. *)
Theorem date_transform_normalizes (rt : Runtime) (s : string) :
  (Date_parse rt s = None ->
   dateOrNull rt (JsString s) = JsNull /\ transformDate rt s = JsNull)
  /\ (s = "" ->
      dateOrNull rt (JsString s) = JsNull /\ transformDate rt s = JsNull)
  /\ (forall t : Z, Date_parse rt s = Some t ->
      dateOrNull rt (JsString s) = JsDate (Some t)
      /\ transformDate rt s = JsDate (Some t))
  /\ (forall plain : PlainQuery, raw_minimumDate plain = Some s ->
      plainToClass rt plain !! "minimumDate" = Some (transformDate rt s))
  /\ (forall plain : PlainQuery, raw_maximumDate plain = Some s ->
      plainToClass rt plain !! "maximumDate" = Some (transformDate rt s)).
Proof.
  rewrite dateOrNull_string, transformDate_string.
  split; [|split; [|split; [|split]]].
  - intros ->. now split.
  - intros ->. rewrite Date_parse_empty. now split.
  - intros t ->. now split.
  - intros plain Hraw. rewrite plainToClass_minimumDate, Hraw. simpl.
    now rewrite transformDate_string.
  - intros plain Hraw. rewrite plainToClass_maximumDate, Hraw. simpl.
    now rewrite transformDate_string.
Qed.

Lemma date_transform_normalizes_witness :
  Date_parse example_runtime "not-a-date" = None
  /\ dateOrNull example_runtime (JsString "not-a-date") = JsNull
  /\ transformDate example_runtime "not-a-date" = JsNull
  /\ Date_parse example_runtime "2024-01-01" = Some 1704067200000
  /\ transformDate example_runtime "2024-01-01" = JsDate (Some 1704067200000).
Proof.
  split; [reflexivity|].
  split; [exact (proj1 (proj1 (date_transform_normalizes example_runtime "not-a-date") eq_refl))|].
  split; [exact (proj2 (proj1 (date_transform_normalizes example_runtime "not-a-date") eq_refl))|].
  split; [reflexivity|].
  exact (proj2 (proj1 (proj2 (proj2 (date_transform_normalizes example_runtime "2024-01-01")))
                 1704067200000 eq_refl)).
Defined.

(** The violations of a query, property by property. *)
Lemma validateQuery_unfold (rt : Runtime) (plain : PlainQuery) :
  validateQuery rt plain
  = (map (pair "status")
        (validateProperty rt
           (plain_property "status" [IsArray; IsEnum ApplicationStatus true] true false None)
           (default JsUndefined (raw_status plain)))
    ++ map (pair "completed")
        (validateProperty rt
           (plain_property "completed" [IsEnum TaskStatus false] true false None)
           (default JsUndefined (raw_completed plain)))
    ++ map (pair "minimumDate")
        (validateProperty rt
           (plain_property "minimumDate" [IsDate] true false None)
           (default JsUndefined (transformDate rt <$> raw_minimumDate plain)))
    ++ map (pair "maximumDate")
        (validateProperty rt
           (plain_property "maximumDate" [IsDate] true false None)
           (default JsUndefined (transformDate rt <$> raw_maximumDate plain))))%list.
Proof.
  unfold validateQuery, validate, BrokerApplicationsListRequestDto, property_of.
  simpl flat_map. cbn [p_name plain_property].
  rewrite plainToClass_status, plainToClass_completed,
    plainToClass_minimumDate, plainToClass_maximumDate.
  now rewrite app_nil_r.
Qed.

Lemma not_in_map_pair (key other : string) (cs : list Constraint) (c : Constraint) :
  key <> other -> ~ In (key, c) (map (pair other) cs).
Proof.
  intros Hne Hin. apply in_map_iff in Hin as (x & Heq & _).
  inversion Heq. congruence.
Qed.

Lemma transformDate_unparseable (rt : Runtime) (s : string) :
  Date_parse rt s = None -> transformDate rt s = JsNull.
Proof. intros Hs. now rewrite transformDate_string, Hs. Qed.

(** ** A date that was supplied and did not parse *)

(** C1: a date parameter supplied as a non-empty string that does not parse
    is kept by the transformation as a key holding [null]; the check at the
    boundary, which sees the parameter and the key, answers
    [INVALID_MINIMUM_DATE_ERROR] for [minimumDate] and
    [INVALID_MAXIMUM_DATE_ERROR] for [maximumDate], both among
    [BAD_REQUEST_ERRORS].  A query without the parameter gets no such
    answer: the failed date is not taken for an absent one. *)
Theorem unparseable_date_rejected
    (rt : Runtime) (plain : PlainQuery) (s : string) :
  s <> "" -> Date_parse rt s = None ->
  (raw_minimumDate plain = Some s ->
     plainToClass rt plain !! "minimumDate" = Some JsNull
     /\ checkMinimumDate rt plain = Some INVALID_MINIMUM_DATE_ERROR)
  /\ (raw_maximumDate plain = Some s ->
       plainToClass rt plain !! "maximumDate" = Some JsNull
       /\ checkMaximumDate rt plain = Some INVALID_MAXIMUM_DATE_ERROR)
  /\ (raw_minimumDate plain = None ->
       plainToClass rt plain !! "minimumDate" = None
       /\ checkMinimumDate rt plain = None)
  /\ (raw_maximumDate plain = None ->
       plainToClass rt plain !! "maximumDate" = None
       /\ checkMaximumDate rt plain = None)
  /\ In INVALID_MINIMUM_DATE_ERROR BAD_REQUEST_ERRORS
  /\ In INVALID_MAXIMUM_DATE_ERROR BAD_REQUEST_ERRORS.
Proof.
  intros Hs Hparse.
  assert (Hne : String.eqb s "" = false) by now apply String.eqb_neq.
  unfold checkMinimumDate, checkMaximumDate.
  rewrite plainToClass_minimumDate, plainToClass_maximumDate.
  split; [|split; [|split; [|split]]].
  - intros ->. cbn [fmap option_fmap option_map].
    rewrite (transformDate_unparseable rt s Hparse).
    unfold checkDateSupplied. now rewrite Hne.
  - intros ->. cbn [fmap option_fmap option_map].
    rewrite (transformDate_unparseable rt s Hparse).
    unfold checkDateSupplied. now rewrite Hne.
  - intros ->. split; reflexivity.
  - intros ->. split; reflexivity.
  - simpl. tauto.
Qed.

Lemma unparseable_date_rejected_witness :
  let plain := {| raw_status := None; raw_completed := None;
                  raw_minimumDate := Some "not-a-date";
                  raw_maximumDate := None |} in
  "not-a-date" <> ""
  /\ Date_parse example_runtime "not-a-date" = None
  /\ checkMinimumDate example_runtime plain = Some INVALID_MINIMUM_DATE_ERROR
  /\ checkMaximumDate example_runtime plain = None.
Proof.
  cbv zeta.
  assert (Hs : "not-a-date" <> "") by discriminate.
  assert (Hparse : Date_parse example_runtime "not-a-date" = None)
    by reflexivity.
  split; [exact Hs|]. split; [exact Hparse|].
  pose proof (unparseable_date_rejected example_runtime
    {| raw_status := None; raw_completed := None;
       raw_minimumDate := Some "not-a-date";
       raw_maximumDate := None |} "not-a-date" Hs Hparse)
    as (Hmin & _ & _ & Hmax & _).
  split; [exact (proj2 (Hmin eq_refl)) | exact (proj2 (Hmax eq_refl))].
Defined.

(** The empty string is no date either, and the boundary lets it
    through. *)
Example empty_date_not_rejected :
  checkMinimumDate example_runtime
    {| raw_status := None; raw_completed := None;
       raw_minimumDate := Some ""; raw_maximumDate := None |} = None.
Proof. reflexivity. Qed.

(** ** The range of the two dates *)

(** C2: when the instance holds a date under both keys and the minimum is
    later than the maximum, the range check fails with a [DateRangeError]
    whose message is [MINIMUM_DATE_EXCEEDS_MAXIMUM_DATE_ERROR], one of the
    messages of [BAD_REQUEST_ERRORS]. *)
Theorem inverted_dates_fail_with_DateRangeError
    (rt : Runtime) (plain : PlainQuery) (minimum maximum : Z) :
  plainToClass rt plain !! "minimumDate" = Some (JsDate (Some minimum)) ->
  plainToClass rt plain !! "maximumDate" = Some (JsDate (Some maximum)) ->
  maximum < minimum ->
  checkDateRange (plainToClass rt plain)
  = Some (DateRangeError MINIMUM_DATE_EXCEEDS_MAXIMUM_DATE_ERROR)
  /\ In MINIMUM_DATE_EXCEEDS_MAXIMUM_DATE_ERROR BAD_REQUEST_ERRORS.
Proof.
  intros Hmin Hmax Hlt. split.
  - unfold checkDateRange. rewrite Hmin, Hmax.
    now rewrite (proj2 (Z.ltb_lt maximum minimum) Hlt).
  - simpl. tauto.
Qed.

Lemma inverted_dates_fail_with_DateRangeError_witness :
  let plain := {| raw_status := None; raw_completed := None;
                  raw_minimumDate := Some "2024-01-01";
                  raw_maximumDate := Some "2023-01-01" |} in
  1672531200000 < 1704067200000
  /\ checkDateRange (plainToClass example_runtime plain)
     = Some (DateRangeError MINIMUM_DATE_EXCEEDS_MAXIMUM_DATE_ERROR).
Proof.
  cbv zeta. split; [lia|].
  refine (proj1 (inverted_dates_fail_with_DateRangeError example_runtime
    {| raw_status := None; raw_completed := None;
       raw_minimumDate := Some "2024-01-01";
       raw_maximumDate := Some "2023-01-01" |}
    1704067200000 1672531200000 _ _ _)).
  - rewrite plainToClass_minimumDate. reflexivity.
  - rewrite plainToClass_maximumDate. reflexivity.
  - lia.
Defined.

(** The check lets every other pair of values through: dates in order, and
    a date that is absent or [null]. *)
Lemma checkDateRange_passes (dto : gmap string JsValue) :
  (forall minimum maximum : Z,
     dto !! "minimumDate" = Some (JsDate (Some minimum)) ->
     dto !! "maximumDate" = Some (JsDate (Some maximum)) ->
     minimum <= maximum -> checkDateRange dto = None)
  /\ (nullish (property_of dto "minimumDate") = true -> checkDateRange dto = None)
  /\ (nullish (property_of dto "maximumDate") = true -> checkDateRange dto = None).
Proof.
  unfold checkDateRange, property_of. split; [|split].
  - intros minimum maximum -> -> Hle.
    destruct (Z.ltb_spec maximum minimum); [lia | reflexivity].
  - destruct (dto !! "minimumDate") as [[]|]; simpl; try discriminate; reflexivity.
  - destruct (dto !! "minimumDate") as [[| | | | |[]|]|]; try reflexivity;
      destruct (dto !! "maximumDate") as [[]|]; simpl; try discriminate; reflexivity.
Qed.

(** ** Enumerations *)

Lemma includes_In (xs : list string) (x : string) :
  includes xs x = true <-> In x xs.
Proof.
  unfold includes. rewrite existsb_exists. split.
  - intros (y & Hy & Heq). apply String.eqb_eq in Heq. now subst.
  - intros Hx. exists x. split; [assumption | apply String.eqb_refl].
Qed.

(** What [@IsEnum(TaskStatus)] decides for [completed]: the value passes
    exactly when it is a member of [TaskStatus], whichever member. *)
Lemma completed_checked_against_TaskStatus
    (rt : Runtime) (plain : PlainQuery) (v : string) :
  raw_completed plain = Some (JsString v) ->
  (In v (TaskStatus_values rt) ->
   forall c : Constraint, ~ In ("completed", c) (validateQuery rt plain))
  /\ (~ In v (TaskStatus_values rt) ->
      In ("completed", IsEnum TaskStatus false) (validateQuery rt plain)).
Proof.
  intros Hraw.
  assert (Hc : validateProperty rt
                 (plain_property "completed" [IsEnum TaskStatus false] true false None)
                 (JsString v)
               = if includes (TaskStatus_values rt) v then []
                 else [IsEnum TaskStatus false]).
  { unfold validateProperty. simpl.
    destruct (includes (TaskStatus_values rt) v); reflexivity. }
  rewrite validateQuery_unfold, Hraw. simpl default. rewrite Hc.
  destruct (includes (TaskStatus_values rt) v) eqn:Hin.
  - split.
    + intros _ c. rewrite !in_app_iff.
      intros [H | [H | [H | H]]]; revert H; try now apply not_in_map_pair.
      simpl. tauto.
    + intros Hnot. apply includes_In in Hin. contradiction.
  - split.
    + intros Hyes. apply includes_In in Hyes. congruence.
    + intros _. apply in_or_app. right. apply in_or_app. left. apply in_eq.
Qed.

(** C3 at [completed=InProgress]: [InProgress] is a member of [TaskStatus]
    other than [Completed] and [Pending], and the validation of the query
    reports nothing: the value is accepted. *)
Theorem completed_InProgress_accepted :
  let plain := {| raw_status := None;
                  raw_completed := Some (JsString "InProgress");
                  raw_minimumDate := None; raw_maximumDate := None |} in
  In "InProgress" (TaskStatus_values example_runtime)
  /\ "InProgress" <> "Completed" /\ "InProgress" <> "Pending"
  /\ validateQuery example_runtime plain = []
  /\ rejected (validateQuery example_runtime plain) = false.
Proof.
  cbv zeta.
  assert (Hv : validateQuery example_runtime
                 {| raw_status := None;
                    raw_completed := Some (JsString "InProgress");
                    raw_minimumDate := None; raw_maximumDate := None |} = []).
  { rewrite validateQuery_unfold. reflexivity. }
  rewrite Hv. repeat split; try discriminate. simpl. tauto.
Qed.

(** A value that is no member of [TaskStatus] is rejected, and the two
    values of the declared type pass. *)
Example completed_examples :
  let query v := {| raw_status := None; raw_completed := Some (JsString v);
                    raw_minimumDate := None; raw_maximumDate := None |} in
  validateQuery example_runtime (query "Completed") = []
  /\ validateQuery example_runtime (query "Pending") = []
  /\ validateQuery example_runtime (query "Done")
     = [("completed", IsEnum TaskStatus false)].
Proof.
  cbv zeta. rewrite !validateQuery_unfold. repeat split; reflexivity.
Qed.

(** ** Validation of a class in general *)

Lemma in_validateProperty (rt : Runtime) (p : Property) (v : JsValue) (c : Constraint) :
  In c (validateProperty rt p v)
  <-> p_optional p && nullish v = false
      /\ In c (p_constraints p) /\ check rt c v = false.
Proof.
  unfold validateProperty.
  destruct (p_optional p && nullish v); simpl.
  - split; [tauto | intros [H _]; discriminate].
  - rewrite filter_In, negb_true_iff. tauto.
Qed.

Lemma in_validate (rt : Runtime) (cls : list Property)
    (obj : gmap string JsValue) (f : string) (c : Constraint) :
  In (f, c) (validate rt cls obj)
  <-> exists p : Property,
        In p cls /\ p_name p = f
        /\ In c (validateProperty rt p (property_of obj f)).
Proof.
  unfold validate. rewrite in_flat_map. split.
  - intros (p & Hp & Hin). apply in_map_iff in Hin as (c' & Heq & Hc).
    inversion Heq; subst. eauto.
  - intros (p & Hp & <- & Hc). exists p. split; [assumption|].
    apply in_map_iff. eauto.
Qed.

Lemma find_property_spec (cls : list Property) :
  NoDup (fields cls) ->
  forall (p : Property) (f : string),
    In p cls /\ p_name p = f <-> find_property cls f = Some p.
Proof.
  unfold find_property, fields.
  induction cls as [|q cls IH]; intros Hnd p f; simpl.
  - split; [tauto | discriminate].
  - inversion Hnd as [|? ? Hq Hnd']; subst.
    destruct (String.eqb_spec (p_name q) f) as [Heq | Hne].
    + split.
      * intros [[-> | Hin] Hname]; [reflexivity|].
        exfalso. apply Hq, list_elem_of_In, in_map_iff.
        exists p. split; [congruence | assumption].
      * intros [= ->]. auto.
    + rewrite <- (IH Hnd' p f). split.
      * intros [[-> | Hin] Hname]; [contradiction | auto].
      * intros [Hin Hname]. auto.
Qed.

Lemma Application_fields_NoDup : NoDup (fields Application.properties).
Proof. apply (bool_decide_unpack _). vm_compute. exact I. Qed.

(** The violations reported for a property of [Application] are those of
    the one descriptor with that name. *)
Lemma in_validate_Application (rt : Runtime) (obj : gmap string JsValue)
    (f : string) (c : Constraint) (p : Property) :
  find_property Application.properties f = Some p ->
  In (f, c) (validate rt Application.properties obj)
  <-> In c (validateProperty rt p (property_of obj f)).
Proof.
  intros Hfind. rewrite in_validate. split.
  - intros (p' & Hin & Hname & Hc).
    assert (find_property Application.properties f = Some p') as Hp'
      by (apply find_property_spec; auto using Application_fields_NoDup).
    congruence.
  - intros Hc. exists p.
    apply find_property_spec in Hfind; [|apply Application_fields_NoDup].
    tauto.
Qed.

Lemma rejected_In (errors : list (string * Constraint)) (e : string * Constraint) :
  In e errors -> rejected errors = true.
Proof. destruct errors; [contradiction | reflexivity]. Qed.

(** ** Validation of the entity *)

(** A required property checked by [@IsString] alone: reported exactly
    when the value is not a string. *)
Lemma string_field_validation (rt : Runtime) (obj : gmap string JsValue)
    (f : string) (p : Property) :
  find_property Application.properties f = Some p ->
  p_constraints p = [IsString] -> p_optional p = false ->
  (In (f, IsString) (validate rt Application.properties obj)
   <-> forall s : string, property_of obj f <> JsString s)
  /\ (forall s : string, property_of obj f = JsString s ->
      forall c : Constraint,
        ~ In (f, c) (validate rt Application.properties obj)).
Proof.
  intros Hfind Hcs Hopt. split.
  - rewrite (in_validate_Application rt obj f IsString p Hfind).
    rewrite in_validateProperty, Hcs, Hopt. simpl.
    destruct (property_of obj f) as [| | | | s | |]; simpl;
      try (split; [intros _ s' Hs'; discriminate Hs' | intros _; repeat split; auto];
           fail).
    split; [intros (_ & _ & Hc); discriminate Hc
           | intros H; exfalso; exact (H s eq_refl)].
  - intros s Hs c.
    rewrite (in_validate_Application rt obj f c p Hfind).
    rewrite in_validateProperty, Hcs, Hs. simpl.
    intros (_ & [<- | []] & Hc). discriminate Hc.
Qed.

(** C9, as the code has it: for [applicantName], [applicantAddress] and
    [applicantMobilePhoneNumber] the validation reports [IsString] exactly
    when the value is not a string, so that the empty string passes with
    nothing reported for the field; for [applicantEmail] it reports
    [IsEmail] exactly when the value is not a string that [isEmail] accepts,
    so that an input with a syntactically invalid email is rejected. *)
Theorem entity_string_fields_and_email
    (rt : Runtime) (obj : gmap string JsValue) :
  (forall f : string,
     In f ["applicantName"; "applicantAddress"; "applicantMobilePhoneNumber"] ->
     (In (f, IsString) (validate rt Application.properties obj)
      <-> forall s : string, property_of obj f <> JsString s)
     /\ (forall s : string, property_of obj f = JsString s ->
         forall c : Constraint,
           ~ In (f, c) (validate rt Application.properties obj)))
  /\ (In ("applicantEmail", IsEmail) (validate rt Application.properties obj)
      <-> forall s : string,
            property_of obj "applicantEmail" = JsString s -> isEmail rt s = false)
  /\ (forall s : string,
        property_of obj "applicantEmail" = JsString s -> isEmail rt s = false ->
        rejected (validate rt Application.properties obj) = true).
Proof.
  assert (Hemail : In ("applicantEmail", IsEmail) (validate rt Application.properties obj)
      <-> forall s : string,
            property_of obj "applicantEmail" = JsString s -> isEmail rt s = false).
  { rewrite (in_validate_Application rt obj "applicantEmail" IsEmail _ eq_refl).
    rewrite in_validateProperty. simpl.
    destruct (property_of obj "applicantEmail") as [| | | | s | |]; simpl;
      try (split; [intros _ s' Hs'; discriminate Hs' | intros _; repeat split; auto];
           fail).
    split.
    - intros (_ & _ & H) s' Hs'. inversion Hs'; subst. exact H.
    - intros H. repeat split; auto. }
  split; [|split].
  - intros f Hf. simpl in Hf.
    destruct Hf as [<- | [<- | [<- | []]]];
      (eapply string_field_validation; [reflexivity..]).
  - exact Hemail.
  - intros s Hs Hbad. apply (rejected_In _ ("applicantEmail", IsEmail)).
    apply Hemail. intros s' Hs'. congruence.
Qed.

(** C9 as stated fails: an application that is valid in every field stays
    valid when its name, address and phone number are the empty string. *)
Lemma empty_applicant_strings_not_rejected :
  let obj := <["applicantName" := JsString ""]>
             (<["applicantAddress" := JsString ""]>
             (<["applicantMobilePhoneNumber" := JsString ""]>
             (Application.dataValues example_application))) in
  property_of obj "applicantName" = JsString ""
  /\ property_of obj "applicantAddress" = JsString ""
  /\ property_of obj "applicantMobilePhoneNumber" = JsString ""
  /\ validate example_runtime Application.properties obj = []
  /\ rejected (validate example_runtime Application.properties obj) = false.
Proof. cbv zeta. repeat split; vm_compute; reflexivity. Qed.

Example invalid_email_rejected :
  validate example_runtime Application.properties
    (<["applicantEmail" := JsString "not-an-email"]>
       (Application.dataValues example_application))
  = [("applicantEmail", IsEmail)].
Proof. vm_compute. reflexivity. Qed.

(** ** Serialization and the response shapes *)

Lemma excluded_Application (key : string) :
  excluded Application.properties key = true
  <-> In key ["id"; "createdAt"; "updatedAt"].
Proof.
  unfold excluded, find_property, Application.properties.
  cbn [find p_name p_exclude plain_property].
  repeat match goal with
         | |- context [String.eqb ?a key] =>
             destruct (String.eqb_spec a key) as [<- | ?];
             [vm_compute; intuition discriminate |]
         end.
  cbn [In]. intuition congruence.
Qed.

Lemma instanceToPlain_lookup (cls : list Property) (obj : gmap string JsValue)
    (key : string) :
  instanceToPlain cls obj !! key
  = if excluded cls key then None else obj !! key.
Proof.
  unfold instanceToPlain. destruct (excluded cls key) eqn:Hex.
  - apply map_lookup_filter_None. right. intros v _. simpl. congruence.
  - destruct (obj !! key) as [v|] eqn:Hv.
    + apply map_lookup_filter_Some. auto.
    + apply map_lookup_filter_None. auto.
Qed.

Lemma find_property_PickType (cls : list Property) (keys : list string) (key : string) :
  find_property (PickType cls keys) key
  = if includes keys key then find_property cls key else None.
Proof.
  unfold find_property, PickType.
  induction cls as [|p cls IH]; simpl.
  - now destruct (includes keys key).
  - destruct (includes keys (p_name p)) eqn:Hp; simpl.
    + destruct (String.eqb_spec (p_name p) key) as [Heq | Hne].
      * now rewrite <- Heq, Hp.
      * exact IH.
    + rewrite IH. destruct (String.eqb_spec (p_name p) key) as [Heq | Hne].
      * now rewrite <- Heq, Hp.
      * reflexivity.
Qed.

Lemma excluded_PickType (cls : list Property) (keys : list string) (key : string) :
  excluded (PickType cls keys) key = includes keys key && excluded cls key.
Proof.
  unfold excluded. rewrite find_property_PickType.
  now destruct (includes keys key).
Qed.









(** ** The columns of the table *)

Lemma lookup_set_key (key : string) (o : option JsValue)
    (obj : gmap string JsValue) (key' : string) :
  set_key key o obj !! key'
  = if String.eqb key key'
    then match o with Some v => Some v | None => obj !! key' end
    else obj !! key'.
Proof.
  unfold set_key. destruct (String.eqb_spec key key') as [<- | Hne].
  - destruct o; [apply lookup_insert_eq | reflexivity].
  - destruct o; [now apply lookup_insert_ne | reflexivity].
Qed.

(** Both attributes are read from the one column [outgoing_valuation]. *)
Lemma fromRow_outgoing (row : gmap string JsValue) :
  Application.fromRow row !! "outgoingMortgage" = row !! "outgoing_valuation"
  /\ Application.fromRow row !! "outgoingValuation" = row !! "outgoing_valuation".
Proof.
  cbv [Application.fromRow Application.properties foldl
       Application.column_name plain_property column p_column p_name type field
       default from_option id].
  repeat (rewrite lookup_set_key; simpl).
  rewrite !lookup_empty.
  destruct (row !! "outgoing_valuation"); split; reflexivity.
Qed.

Lemma save_columns (this : Application.Instance) :
  Application.save this !! "outgoing_valuation"
  = Some (Application.number (Application.outgoingValuation this))
  /\ Application.save this !! "loan_amount"
     = Some (Application.number (Application.loanAmount this)).
Proof.
  destruct this as [id ? email ? ? brokerId ? ? ? ? ? ? ? ? ? ? ? ? ? ? updatedAt].
  destruct id, email, brokerId, updatedAt; split; vm_compute; reflexivity.
Qed.

Lemma fromRow_loanAmount (row : gmap string JsValue) :
  Application.fromRow row !! "loanAmount" = row !! "loan_amount".
Proof.
  cbv [Application.fromRow Application.properties foldl
       Application.column_name plain_property column p_column p_name type field
       default from_option id].
  repeat (rewrite lookup_set_key; simpl).
  rewrite !lookup_empty.
  destruct (row !! "loan_amount"); reflexivity.
Qed.

(** C4 on the code: [outgoingMortgage] and [outgoingValuation] are both
    mapped to the column [outgoing_valuation].  Whatever row is read, the two
    attributes come back equal; an application saved and read back has its
    valuation in both, and its mortgage is lost.  An attribute with a column
    of its own, such as [loanAmount], comes back as saved. *)
Theorem outgoingMortgage_shares_column :
  (Application.column_name <$> find_property Application.properties "outgoingMortgage")
  = Some (Some "outgoing_valuation")
  /\ (Application.column_name <$> find_property Application.properties "outgoingValuation")
     = Some (Some "outgoing_valuation")
  /\ (forall row : gmap string JsValue,
        Application.fromRow row !! "outgoingMortgage"
        = Application.fromRow row !! "outgoingValuation")
  /\ (forall this : Application.Instance,
        Application.fromRow (Application.save this) !! "outgoingMortgage"
        = Some (Application.number (Application.outgoingValuation this))
        /\ Application.fromRow (Application.save this) !! "outgoingValuation"
           = Some (Application.number (Application.outgoingValuation this))
        /\ Application.fromRow (Application.save this) !! "loanAmount"
           = Some (Application.number (Application.loanAmount this)))
  /\ Application.dataValues example_application !! "outgoingMortgage"
     = Some (Application.number (Q2Qc 100000))
  /\ Application.fromRow (Application.save example_application) !! "outgoingMortgage"
     = Some (Application.number (Q2Qc 400000)).
Proof.
  split; [reflexivity|]. split; [reflexivity|].
  assert (Hread : forall this : Application.Instance,
        Application.fromRow (Application.save this) !! "outgoingMortgage"
        = Some (Application.number (Application.outgoingValuation this))
        /\ Application.fromRow (Application.save this) !! "outgoingValuation"
           = Some (Application.number (Application.outgoingValuation this))
        /\ Application.fromRow (Application.save this) !! "loanAmount"
           = Some (Application.number (Application.loanAmount this))).
  { intros this.
    destruct (fromRow_outgoing (Application.save this)) as [-> ->].
    rewrite fromRow_loanAmount.
    destruct (save_columns this) as [-> ->]. auto. }
  split; [|split; [exact Hread | split]].
  - intros row. destruct (fromRow_outgoing row) as [-> ->]. reflexivity.
  - vm_compute. reflexivity.
  - apply (Hread example_application).
Qed.

(** ** The average loan amount *)

Lemma count_cons (x : Qc) (xs : list Qc) :
  Application.count (x :: xs) = (1 + Application.count xs)%Qc.
Proof.
  unfold Application.count. apply Qc_is_canon. cbn [List.length].
  rewrite Nat2Z.inj_succ. unfold Qcplus, Q2Qc. cbn [this].
  rewrite !Qred_correct.
  unfold Z.succ. rewrite inject_Z_plus. change (this 1) with 1%Q. ring.
Qed.

Lemma count_not_zero (xs : list Qc) :
  xs <> [] -> Application.count xs <> Q2Qc 0.
Proof.
  intros Hxs Heq. destruct xs as [|x xs]; [congruence|].
  unfold Application.count in Heq. apply (f_equal this) in Heq. simpl in Heq.
  cbn [List.length] in Heq. rewrite Nat2Z.inj_succ in Heq.
  assert (H : (Qred (inject_Z (Z.succ (Z.of_nat (List.length xs)))) == 0)%Q)
    by (rewrite Heq; reflexivity).
  rewrite Qred_correct in H. unfold Qeq, inject_Z in H. simpl in H. lia.
Qed.

Lemma fold_deviation (m : Qc) (xs : list Qc) : forall acc : Qc,
  fold_left (fun acc x => (acc + (x - m))%Qc) xs acc
  = (acc + Application.sum xs - Application.count xs * m)%Qc.
Proof.
  induction xs as [|x xs IH]; intros acc.
  - cbn [fold_left Application.sum foldr].
    change (Application.count []) with (Q2Qc 0). ring.
  - cbn [fold_left]. rewrite IH, count_cons.
    cbn [Application.sum foldr]. fold (Application.sum xs). ring.
Qed.

(** What the database computes is the mean. *)
Lemma quotient_is_mean (xs : list Qc) :
  xs <> [] -> is_mean xs (Application.sum xs / Application.count xs)%Qc.
Proof.
  intros Hxs. split; [exact Hxs|].
  unfold total_deviation. rewrite fold_deviation.
  pose proof (count_not_zero xs Hxs) as Hc. field. exact Hc.
Qed.

(** A column has one mean. *)
Lemma is_mean_unique (xs : list Qc) (m m' : Qc) :
  is_mean xs m -> is_mean xs m' -> m = m'.
Proof.
  intros [Hxs Hm] [_ Hm']. unfold total_deviation in *.
  rewrite fold_deviation in Hm, Hm'.
  pose proof (count_not_zero xs Hxs) as Hc.
  assert (H : (Application.count xs * (m - m') = 0)%Qc).
  { transitivity ((0 + Application.sum xs - Application.count xs * m')
                  - (0 + Application.sum xs - Application.count xs * m))%Qc;
      [ring|].
    change (Q2Qc 0) with 0%Qc in *. rewrite Hm, Hm'. ring. }
  apply Qcmult_integral in H. destruct H as [H|H]; [contradiction|].
  transitivity (m - m' + m')%Qc; [ring|]. rewrite H. ring.
Qed.

Lemma column_values_loan_amount (table : list (gmap string JsValue))
    (amounts : list Qc) :
  Forall2 (fun row q => row !! "loan_amount" = Some (Application.number q))
          table amounts ->
  Application.column_values table "loan_amount" = amounts.
Proof.
  unfold Application.column_values.
  induction 1 as [|row q table amounts Hrow _ IH]; [reflexivity|].
  cbn [omap list_omap]. rewrite Hrow. cbn. now rewrite IH.
Qed.

Lemma getAverageLoanAmount_unfold (numeric_text : Qc -> string)
    (table : list (gmap string JsValue)) :
  Application.getAverageLoanAmount numeric_text table
  = js_or (Application.AVG numeric_text table "loan_amount") (JsInt 0).
Proof.
  unfold Application.getAverageLoanAmount, Application.findOne_AVG, property_of.
  cbv zeta. now rewrite lookup_singleton_eq.
Qed.

(** C7 on the code: over a table without rows the function returns the
    number 0.  Over a table with rows the database computes the mean of
    [loan_amount], but what the function returns is the text the database
    writes for it: a string passes [|| 0] unchanged (unless empty) and the
    cast does nothing, so the caller gets a string where the signature and
    the specification promise a number. *)
Theorem getAverageLoanAmount_returns_text (numeric_text : Qc -> string)
    (table : list (gmap string JsValue)) (amounts : list Qc) :
  Forall2 (fun row q => row !! "loan_amount" = Some (Application.number q))
          table amounts ->
  (amounts = [] ->
     Application.getAverageLoanAmount numeric_text table = JsInt 0)
  /\ (amounts <> [] ->
       exists m : Qc,
         is_mean amounts m
         /\ Application.getAverageLoanAmount numeric_text table
            = (if String.eqb (numeric_text m) ""
               then JsInt 0
               else JsString (numeric_text m))
         /\ (numeric_text m <> "" ->
             forall n : JsNum,
               Application.getAverageLoanAmount numeric_text table
               <> JsNumber n)).
Proof.
  intros Hrows. rewrite getAverageLoanAmount_unfold.
  unfold Application.AVG.
  rewrite (column_values_loan_amount table amounts Hrows).
  split.
  - intros ->. reflexivity.
  - intros Hne. exists (Application.sum amounts / Application.count amounts)%Qc.
    split; [now apply quotient_is_mean|].
    destruct amounts as [|x xs]; [congruence|].
    unfold js_or. cbn [truthy].
    destruct (String.eqb_spec
                (numeric_text (Application.sum (x :: xs)
                               / Application.count (x :: xs))%Qc) "")
      as [Hempty | Hfull]; cbn [negb].
    + split; [reflexivity|]. intros Hcontra. contradiction.
    + split; [reflexivity|]. intros _ n. discriminate.
Qed.

Lemma getAverageLoanAmount_returns_text_witness :
  let table : list (gmap string JsValue) :=
    [ {[ "loan_amount" := Application.number (Q2Qc 300000) ]};
      {[ "loan_amount" := Application.number (Q2Qc 100000.50) ]} ] in
  Application.getAverageLoanAmount example_numeric_text table
  = JsString "200000.2500000000000000"
  /\ exists m : Qc,
       is_mean [Q2Qc 300000; Q2Qc 100000.50] m
       /\ Application.getAverageLoanAmount example_numeric_text table
          = (if String.eqb (example_numeric_text m) ""
             then JsInt 0
             else JsString (example_numeric_text m))
       /\ (example_numeric_text m <> "" ->
           forall n : JsNum,
             Application.getAverageLoanAmount example_numeric_text table
             <> JsNumber n).
Proof.
  cbv zeta. split; [vm_compute; reflexivity|].
  refine (proj2 (getAverageLoanAmount_returns_text example_numeric_text
    [ {[ "loan_amount" := Application.number (Q2Qc 300000) ]};
      {[ "loan_amount" := Application.number (Q2Qc 100000.50) ]} ]
    [Q2Qc 300000; Q2Qc 100000.50] _) _).
  - repeat constructor.
  - discriminate.
Defined.

Example average_examples :
  Application.getAverageLoanAmount example_numeric_text [] = JsInt 0
  /\ Application.getAverageLoanAmount example_numeric_text
       [ {[ "loan_amount" := Application.number (Q2Qc 300000) ]} ]
     = JsString "300000.0000000000000000"
  /\ Application.getAverageLoanAmount example_numeric_text
       [ {[ "loan_amount" := JsNull ]} ]
     = JsInt 0.
Proof. repeat split; vm_compute; reflexivity. Qed.

(** * Further properties of the two files *)

(** ** The date parameters never fail the validation *)

Lemma dateOrNull_cases (rt : Runtime) (v : JsValue) :
  dateOrNull rt v
  = if truthy v
    then match Date_new rt v with Some t => JsDate (Some t) | None => JsNull end
    else JsNull.
Proof.
  unfold dateOrNull. destruct (truthy v); simpl; [|reflexivity].
  destruct (Date_new rt v); reflexivity.
Qed.

(** X1: whatever value reaches it, the function of [@Transform] answers
    [null] or a valid [Date], the date [new Date(value)] builds; every falsy
    value ([0] and [false] included) gives [null]; and applying it to its own
    result changes nothing. *)
Theorem dateOrNull_null_or_valid_date (rt : Runtime) (v : JsValue) :
  (dateOrNull rt v = JsNull
   \/ exists t : Z, dateOrNull rt v = JsDate (Some t) /\ Date_new rt v = Some t)
  /\ (truthy v = false -> dateOrNull rt v = JsNull)
  /\ (forall t : Z, truthy v = true -> Date_new rt v = Some t ->
      dateOrNull rt v = JsDate (Some t))
  /\ dateOrNull rt (dateOrNull rt v) = dateOrNull rt v.
Proof.
  rewrite !dateOrNull_cases.
  split; [|split; [|split]].
  - destruct (truthy v); [|now left].
    destruct (Date_new rt v) as [t|]; [right; exists t; auto | now left].
  - now intros ->.
  - now intros t -> ->.
  - destruct (truthy v); [|reflexivity].
    destruct (Date_new rt v) as [t|]; reflexivity.
Qed.

Lemma date_property_never_fails (rt : Runtime) (name : string) (raw : option string) :
  validateProperty rt (plain_property name [IsDate] true false None)
    (default JsUndefined (transformDate rt <$> raw)) = [].
Proof.
  destruct raw as [s|]; simpl; [|reflexivity].
  rewrite transformDate_string. destruct (Date_parse rt s); reflexivity.
Qed.

(** The violations of a query are those of [status] and [completed]. *)
Lemma validateQuery_two (rt : Runtime) (plain : PlainQuery) :
  validateQuery rt plain
  = (map (pair "status")
        (validateProperty rt
           (plain_property "status" [IsArray; IsEnum ApplicationStatus true] true false None)
           (default JsUndefined (raw_status plain)))
    ++ map (pair "completed")
        (validateProperty rt
           (plain_property "completed" [IsEnum TaskStatus false] true false None)
           (default JsUndefined (raw_completed plain))))%list.
Proof.
  rewrite validateQuery_unfold, !date_property_never_fails.
  cbn [map]. now rewrite !app_nil_r.
Qed.

(** X2: no value of [minimumDate] or [maximumDate] makes the validation
    report anything: what is reported for a query is what is reported for the
    query without its dates.  The instance holds no key for an absent date,
    and [null] or a valid [Date] for a supplied one. *)
Theorem date_parameters_never_rejected (rt : Runtime) (plain : PlainQuery) :
  (forall c : Constraint, ~ In ("minimumDate", c) (validateQuery rt plain))
  /\ (forall c : Constraint, ~ In ("maximumDate", c) (validateQuery rt plain))
  /\ validateQuery rt plain
     = validateQuery rt {| raw_status := raw_status plain;
                           raw_completed := raw_completed plain;
                           raw_minimumDate := None;
                           raw_maximumDate := None |}
  /\ (plainToClass rt plain !! "minimumDate" = None <-> raw_minimumDate plain = None)
  /\ (plainToClass rt plain !! "maximumDate" = None <-> raw_maximumDate plain = None)
  /\ (forall (key : string) (v : JsValue),
        key = "minimumDate" \/ key = "maximumDate" ->
        plainToClass rt plain !! key = Some v ->
        v = JsNull \/ exists t : Z, v = JsDate (Some t)).
Proof.
  split; [|split; [|split; [|split; [|split]]]].
  - intros c. rewrite validateQuery_two, in_app_iff.
    intros [H | H]; revert H; now apply not_in_map_pair.
  - intros c. rewrite validateQuery_two, in_app_iff.
    intros [H | H]; revert H; now apply not_in_map_pair.
  - now rewrite !validateQuery_two.
  - rewrite plainToClass_minimumDate.
    destruct (raw_minimumDate plain); simpl; split; intros H; congruence.
  - rewrite plainToClass_maximumDate.
    destruct (raw_maximumDate plain); simpl; split; intros H; congruence.
  - intros key v [-> | ->].
    + rewrite plainToClass_minimumDate.
      destruct (raw_minimumDate plain) as [s|]; simpl; [|discriminate].
      rewrite transformDate_string. intros [= <-].
      destruct (Date_parse rt s) as [t|]; [right; now exists t | now left].
    + rewrite plainToClass_maximumDate.
      destruct (raw_maximumDate plain) as [s|]; simpl; [|discriminate].
      rewrite transformDate_string. intros [= <-].
      destruct (Date_parse rt s) as [t|]; [right; now exists t | now left].
Qed.

(** ** [status] and [completed] *)

Lemma forallb_includes (xs ys : list string) :
  forallb (includes ys) xs = true <-> Forall (fun x => In x ys) xs.
Proof.
  rewrite forallb_forall, Forall_forall. split; intros H x Hx.
  - apply includes_In, H, Hx.
  - apply includes_In, H, Hx.
Qed.

Lemma in_validateQuery_status (rt : Runtime) (plain : PlainQuery) (c : Constraint) :
  In ("status", c) (validateQuery rt plain)
  <-> In c (validateProperty rt
              (plain_property "status" [IsArray; IsEnum ApplicationStatus true] true false None)
              (default JsUndefined (raw_status plain))).
Proof.
  rewrite validateQuery_two, in_app_iff, !in_map_iff. split.
  - intros [(c' & [= <-] & Hc) | (c' & Heq & _)]; [exact Hc | discriminate Heq].
  - intros Hc. left. eauto.
Qed.

Lemma in_validateQuery_completed (rt : Runtime) (plain : PlainQuery) (c : Constraint) :
  In ("completed", c) (validateQuery rt plain)
  <-> In c (validateProperty rt
              (plain_property "completed" [IsEnum TaskStatus false] true false None)
              (default JsUndefined (raw_completed plain))).
Proof.
  rewrite validateQuery_two, in_app_iff, !in_map_iff. split.
  - intros [(c' & Heq & _) | (c' & [= <-] & Hc)]; [discriminate Heq | exact Hc].
  - intros Hc. right. eauto.
Qed.

Lemma status_violations (rt : Runtime) (v : JsValue) :
  validateProperty rt
    (plain_property "status" [IsArray; IsEnum ApplicationStatus true] true false None) v
  = match v with
    | JsUndefined | JsNull => []
    | JsArray xs =>
        if forallb (includes (ApplicationStatus_values rt)) xs then []
        else [IsEnum ApplicationStatus true]
    | JsString s =>
        IsArray :: (if includes (ApplicationStatus_values rt) s then []
                    else [IsEnum ApplicationStatus true])
    | _ => [IsArray; IsEnum ApplicationStatus true]
    end.
Proof.
  unfold validateProperty. destruct v as [| | b | n | s | t | xs]; simpl;
    try reflexivity.
  - destruct (includes (ApplicationStatus_values rt) s); reflexivity.
  - destruct (forallb (includes (ApplicationStatus_values rt)) xs); reflexivity.
Qed.

Lemma completed_violations (rt : Runtime) (v : JsValue) :
  validateProperty rt
    (plain_property "completed" [IsEnum TaskStatus false] true false None) v
  = match v with
    | JsUndefined | JsNull => []
    | JsString s =>
        if includes (TaskStatus_values rt) s then [] else [IsEnum TaskStatus false]
    | _ => [IsEnum TaskStatus false]
    end.
Proof.
  unfold validateProperty. destruct v as [| | b | n | s | t | xs]; simpl;
    try reflexivity.
  destruct (includes (TaskStatus_values rt) s); reflexivity.
Qed.

Lemma includes_false (xs : list string) (x : string) :
  includes xs x = false <-> ~ In x xs.
Proof.
  rewrite <- includes_In. destruct (includes xs x); split; congruence.
Qed.

Lemma forallb_includes_false (xs ys : list string) :
  forallb (includes ys) xs = false <-> ~ Forall (fun x => In x ys) xs.
Proof.
  rewrite <- forallb_includes.
  destruct (forallb (includes ys) xs); split; congruence.
Qed.

Lemma status_passes_iff (rt : Runtime) (plain : PlainQuery) :
  (forall c : Constraint, ~ In ("status", c) (validateQuery rt plain))
  <-> status_acceptable rt (raw_status plain).
Proof.
  setoid_rewrite in_validateQuery_status. rewrite status_violations.
  destruct (raw_status plain) as [[| | b | n | s | t | xs]|]; simpl;
    try (split; [intros _; exact I | intros _ c H; exact H]);
    try (split; [intros H; exact (H IsArray (or_introl eq_refl)) | intros []]).
  destruct (forallb (includes (ApplicationStatus_values rt)) xs) eqn:Hall.
  - apply forallb_includes in Hall. split; [auto | intros _ c H; exact H].
  - apply forallb_includes_false in Hall. split; [|intros H; contradiction].
    intros H. exfalso. exact (H _ (or_introl eq_refl)).
Qed.

Lemma completed_passes_iff (rt : Runtime) (plain : PlainQuery) :
  (forall c : Constraint, ~ In ("completed", c) (validateQuery rt plain))
  <-> completed_acceptable rt (raw_completed plain).
Proof.
  setoid_rewrite in_validateQuery_completed. rewrite completed_violations.
  destruct (raw_completed plain) as [[| | b | n | s | t | xs]|]; simpl;
    try (split; [intros _; exact I | intros _ c H; exact H]);
    try (split; [intros H; exact (H _ (or_introl eq_refl)) | intros []]).
  destruct (includes (TaskStatus_values rt) s) eqn:Hin.
  - apply includes_In in Hin. split; [auto | intros _ c H; exact H].
  - apply includes_false in Hin. split; [|intros H; contradiction].
    intros H. exfalso. exact (H _ (or_introl eq_refl)).
Qed.

(** X3: [status] passes exactly when it is absent, [null] or an array of
    members of [ApplicationStatus] (the empty array included).  A single
    string fails [IsArray] even when it is a member, and fails [IsEnum] too
    when it is not; an array never fails [IsArray] and fails [IsEnum] as soon
    as one element is no member. *)
Theorem status_filter_validation (rt : Runtime) (plain : PlainQuery) :
  ((forall c : Constraint, ~ In ("status", c) (validateQuery rt plain))
   <-> status_acceptable rt (raw_status plain))
  /\ (forall s : string, raw_status plain = Some (JsString s) ->
      In ("status", IsArray) (validateQuery rt plain)
      /\ (In ("status", IsEnum ApplicationStatus true) (validateQuery rt plain)
          <-> ~ In s (ApplicationStatus_values rt)))
  /\ (forall xs : list string, raw_status plain = Some (JsArray xs) ->
      ~ In ("status", IsArray) (validateQuery rt plain)
      /\ (In ("status", IsEnum ApplicationStatus true) (validateQuery rt plain)
          <-> ~ Forall (fun x => In x (ApplicationStatus_values rt)) xs)).
Proof.
  split; [apply status_passes_iff|]. split.
  - intros s Hraw. rewrite !in_validateQuery_status, status_violations, Hraw. simpl.
    split; [now left|].
    destruct (includes (ApplicationStatus_values rt) s) eqn:Hin.
    + apply includes_In in Hin. simpl. split; [|contradiction].
      intros [H | []]. discriminate H.
    + apply includes_false in Hin. simpl. split; auto.
  - intros xs Hraw. rewrite !in_validateQuery_status, status_violations, Hraw. simpl.
    destruct (forallb (includes (ApplicationStatus_values rt)) xs) eqn:Hall.
    + apply forallb_includes in Hall. simpl. split; [tauto|]. split; [tauto | contradiction].
    + apply forallb_includes_false in Hall. simpl. split.
      * intros [H | []]. discriminate H.
      * split; auto.
Qed.

(** X4: [completed] passes exactly when it is absent, [null] or one string
    that is a member of [TaskStatus].  Given several times it arrives as an
    array and fails, whatever the array holds. *)
Theorem completed_filter_validation (rt : Runtime) (plain : PlainQuery) :
  ((forall c : Constraint, ~ In ("completed", c) (validateQuery rt plain))
   <-> completed_acceptable rt (raw_completed plain))
  /\ (forall xs : list string, raw_completed plain = Some (JsArray xs) ->
      In ("completed", IsEnum TaskStatus false) (validateQuery rt plain)).
Proof.
  split; [apply completed_passes_iff|].
  intros xs Hraw. rewrite in_validateQuery_completed, completed_violations, Hraw.
    simpl. now left.
Qed.

Lemma nil_iff_no_member {A : Type} (l : list A) : l = [] <-> forall x : A, ~ In x l.
Proof.
  split; [intros -> x [] |].
  destruct l as [|a l]; [reflexivity|]. intros H. exfalso. apply (H a). now left.
Qed.

(** X5: a query is accepted exactly when its [status] and its [completed]
    pass; the dates have no part in it. *)
Theorem query_accepted_iff (rt : Runtime) (plain : PlainQuery) :
  validateQuery rt plain = []
  <-> status_acceptable rt (raw_status plain)
      /\ completed_acceptable rt (raw_completed plain).
Proof.
  rewrite <- status_passes_iff, <- completed_passes_iff.
  rewrite nil_iff_no_member. split.
  - intros H. split; intros c; apply H.
  - intros [Hs Hc] [f c] Hin.
    pose proof Hin as Hin'. rewrite validateQuery_two, in_app_iff, !in_map_iff in Hin'.
    destruct Hin' as [(c' & [= <- <-] & _) | (c' & [= <- <-] & _)].
    + exact (Hs _ Hin).
    + exact (Hc _ Hin).
Qed.

Example query_examples :
  let query st co := {| raw_status := st; raw_completed := co;
                        raw_minimumDate := Some "2024-01-01";
                        raw_maximumDate := Some "yesterday" |} in
  validateQuery example_runtime
    (query (Some (JsArray ["Pending"; "OnHold"])) (Some (JsString "Completed"))) = []
  /\ validateQuery example_runtime (query (Some (JsString "Pending")) None)
     = [("status", IsArray)]
  /\ validateQuery example_runtime (query (Some (JsArray ["NotARealStatus"])) None)
     = [("status", IsEnum ApplicationStatus true)]
  /\ validateQuery example_runtime (query (Some (JsArray [])) None) = []
  /\ validateQuery example_runtime
       (query None (Some (JsArray ["Completed"; "Pending"])))
     = [("completed", IsEnum TaskStatus false)].
Proof. cbv zeta. rewrite !validateQuery_two. repeat split; reflexivity. Qed.

(** ** [PickType] *)

Lemma validate_PickType (rt : Runtime) (cls : list Property) (keys : list string)
    (obj : gmap string JsValue) :
  validate rt (PickType cls keys) obj
  = List.filter (fun e => includes keys e.1) (validate rt cls obj).
Proof.
  unfold validate, PickType.
  induction cls as [|p cls IH]; [reflexivity|].
  cbn [List.filter flat_map]. rewrite filter_app, <- IH.
  assert (Hp : List.filter (fun e : string * Constraint => includes keys e.1)
                 (map (pair (p_name p))
                    (validateProperty rt p (property_of obj (p_name p))))
               = if includes keys (p_name p)
                 then map (pair (p_name p))
                        (validateProperty rt p (property_of obj (p_name p)))
                 else []).
  { generalize (validateProperty rt p (property_of obj (p_name p))). intros cs.
    induction cs as [|c cs IHcs]; simpl.
    - now destruct (includes keys (p_name p)).
    - rewrite IHcs. now destruct (includes keys (p_name p)). }
  rewrite Hp. now destruct (includes keys (p_name p)).
Qed.

Lemma in_validate_PickType (rt : Runtime) (cls : list Property)
    (keys : list string) (obj : gmap string JsValue) (f : string) (c : Constraint) :
  In (f, c) (validate rt (PickType cls keys) obj)
  <-> In f keys /\ In (f, c) (validate rt cls obj).
Proof.
  rewrite validate_PickType, filter_In. simpl. rewrite includes_In. tauto.
Qed.

(** X7: validating an object against a picked class reports exactly the
    violations the original class reports under the picked keys: nothing is
    added, nothing about a picked property is lost, and what concerns the
    other properties is not looked at. *)
Theorem PickType_validates_like_the_class
    (rt : Runtime) (cls : list Property) (keys : list string)
    (obj : gmap string JsValue) :
  validate rt (PickType cls keys) obj
  = List.filter (fun e => includes keys e.1) (validate rt cls obj)
  /\ (forall (f : string) (c : Constraint),
        In (f, c) (validate rt (PickType cls keys) obj)
        <-> In f keys /\ In (f, c) (validate rt cls obj)).
Proof.
  split; [apply validate_PickType | apply in_validate_PickType].
Qed.

(** X8: [@Exclude] comes along with a picked property.  Run through
    class-transformer, an object of the class of a list item therefore loses
    [id] and [createdAt], which the class declares, and keeps every other
    key; an object of the detail class keeps all its keys but [id],
    [createdAt] and [updatedAt]. *)
Theorem picked_classes_keep_Exclude (obj : gmap string JsValue) :
  (forall (cls : list Property) (keys : list string) (key : string),
     excluded (PickType cls keys) key = includes keys key && excluded cls key)
  /\ instanceToPlain BrokerApplicationDto obj !! "id" = None
  /\ instanceToPlain BrokerApplicationDto obj !! "createdAt" = None
  /\ (forall key : string, key <> "id" -> key <> "createdAt" ->
      instanceToPlain BrokerApplicationDto obj !! key = obj !! key)
  /\ (forall key : string,
        In key (fields ApplicationDto) ->
        instanceToPlain ApplicationDto obj !! key = obj !! key).
Proof.
  split; [apply excluded_PickType|].
  split; [now rewrite instanceToPlain_lookup|].
  split; [now rewrite instanceToPlain_lookup|]. split.
  - intros key Hid Hcreated. rewrite instanceToPlain_lookup.
    unfold BrokerApplicationDto. rewrite excluded_PickType.
    destruct (excluded Application.properties key) eqn:Hex;
      [|now rewrite andb_false_r].
    apply excluded_Application in Hex. simpl in Hex.
    destruct Hex as [<- | [<- | [<- | []]]]; try congruence. reflexivity.
  - intros key Hkey. rewrite instanceToPlain_lookup.
    unfold ApplicationDto. rewrite excluded_PickType.
    destruct (excluded Application.properties key) eqn:Hex;
      [|now rewrite andb_false_r].
    apply excluded_Application in Hex.
    exfalso. simpl in Hex, Hkey.
    destruct Hex as [<- | [<- | [<- | []]]];
      repeat (destruct Hkey as [Hkey | Hkey]; [discriminate Hkey|]); exact Hkey.
Qed.

(** ** The detail shape *)

Lemma check_nullish (rt : Runtime) (c : Constraint) (v : JsValue) :
  nullish v = true -> check rt c v = false.
Proof.
  destruct v; try discriminate; intros _; destruct c as [| | | | | |e []]; reflexivity.
Qed.

Lemma required_property_reports (rt : Runtime) (obj : gmap string JsValue)
    (f : string) (p : Property) (c : Constraint) :
  find_property Application.properties f = Some p ->
  p_optional p = false -> p_constraints p = [c] ->
  nullish (property_of obj f) = true ->
  In (f, c) (validate rt Application.properties obj).
Proof.
  intros Hfind Hopt Hcs Hnull.
  rewrite (in_validate_Application rt obj f c p Hfind), in_validateProperty.
  rewrite Hopt, Hcs. repeat split; [now left | now apply check_nullish].
Qed.

(** X9: the detail shape [ApplicationDto] declares the sixteen applicant
    and financial fields and none of [id], [applicationId], [status],
    [brokerId], [broker], [task], [createdAt], [updatedAt].  Each of its
    fields is required: an input in which one of them is missing or [null] is
    rejected. *)
Theorem ApplicationDto_fields_all_required
    (rt : Runtime) (obj : gmap string JsValue) :
  fields ApplicationDto
  = ["applicantName"; "applicantEmail"; "applicantMobilePhoneNumber";
     "applicantAddress"; "annualIncomeBeforeTax"; "incomingAddress";
     "incomingDeposit"; "incomingPrice"; "incomingStampDuty"; "loanAmount";
     "loanDuration"; "monthlyExpenses"; "outgoingAddress"; "outgoingMortgage";
     "outgoingValuation"; "savingsContribution"]
  /\ (forall f : string,
        In f ["id"; "applicationId"; "status"; "brokerId"; "broker"; "task";
              "createdAt"; "updatedAt"] ->
        ~ In f (fields ApplicationDto))
  /\ (forall f : string,
        In f (fields ApplicationDto) -> nullish (property_of obj f) = true ->
        rejected (validate rt ApplicationDto obj) = true).
Proof.
  assert (Hfields : fields ApplicationDto
    = ["applicantName"; "applicantEmail"; "applicantMobilePhoneNumber";
       "applicantAddress"; "annualIncomeBeforeTax"; "incomingAddress";
       "incomingDeposit"; "incomingPrice"; "incomingStampDuty"; "loanAmount";
       "loanDuration"; "monthlyExpenses"; "outgoingAddress"; "outgoingMortgage";
       "outgoingValuation"; "savingsContribution"]) by reflexivity.
  split; [exact Hfields|]. split.
  - rewrite Hfields. intros f Hf Hin. simpl in Hf, Hin.
    repeat (destruct Hf as [<- | Hf];
            [repeat (destruct Hin as [Hin | Hin]; [discriminate Hin|]); exact Hin|]).
    exact Hf.
  - intros f Hf Hnull.
    assert (Hc : exists c : Constraint,
               In (f, c) (validate rt Application.properties obj)).
    { rewrite Hfields in Hf. simpl in Hf.
      repeat (destruct Hf as [<- | Hf];
              [eexists; eapply required_property_reports;
               [reflexivity | reflexivity | reflexivity | exact Hnull]|]).
      destruct Hf. }
    destruct Hc as (c & Hc).
    apply (rejected_In _ (f, c)).
    unfold ApplicationDto. rewrite validate_PickType.
    apply filter_In. split; [exact Hc|].
    apply includes_In. rewrite Hfields in Hf. exact Hf.
Qed.

(** ** Required, optional and unchecked properties of the entity *)

Lemma unchecked_property (rt : Runtime) (obj : gmap string JsValue)
    (f : string) (c : Constraint) :
  ~ In f ["applicantName"; "applicantEmail"; "applicantMobilePhoneNumber";
          "applicantAddress"; "brokerId"; "annualIncomeBeforeTax";
          "incomingAddress"; "incomingDeposit"; "incomingPrice";
          "incomingStampDuty"; "loanAmount"; "loanDuration"; "monthlyExpenses";
          "outgoingAddress"; "outgoingMortgage"; "outgoingValuation";
          "savingsContribution"; "status"; "createdAt"; "updatedAt"] ->
  ~ In (f, c) (validate rt Application.properties obj).
Proof.
  intros Hnot Hin. apply in_validate in Hin as (p & Hp & Hname & Hc).
  unfold Application.properties in Hp. cbn [In] in Hp.
  repeat (destruct Hp as [<- | Hp];
          [first [ solve [apply Hnot; rewrite <- Hname;
                          cbn [In p_name plain_property]; tauto]
                 | solve [apply in_validateProperty in Hc;
                          destruct Hc as (_ & Hc & _); exact Hc] ]
          |]).
  exact Hp.
Qed.

(** X10: of the properties of [Application], eighteen are required: an
    input in which one of them is missing or [null] is rejected, the
    timestamp [createdAt] and the optional-typed [applicantEmail] included.
    [brokerId] and [updatedAt] may be missing or [null].  Nothing is ever
    reported for [id], [applicationId], [broker], [task] or a key that is no
    property of the class. *)
Theorem entity_required_optional_unchecked
    (rt : Runtime) (obj : gmap string JsValue) :
  (forall f : string,
     In f ["applicantName"; "applicantEmail"; "applicantMobilePhoneNumber";
           "applicantAddress"; "annualIncomeBeforeTax"; "incomingAddress";
           "incomingDeposit"; "incomingPrice"; "incomingStampDuty";
           "loanAmount"; "loanDuration"; "monthlyExpenses"; "outgoingAddress";
           "outgoingMortgage"; "outgoingValuation"; "savingsContribution";
           "status"; "createdAt"] ->
     nullish (property_of obj f) = true ->
     rejected (validate rt Application.properties obj) = true)
  /\ (forall f : string,
        In f ["brokerId"; "updatedAt"] ->
        nullish (property_of obj f) = true ->
        forall c : Constraint,
          ~ In (f, c) (validate rt Application.properties obj))
  /\ (forall (f : string) (c : Constraint),
        ~ In f ["applicantName"; "applicantEmail"; "applicantMobilePhoneNumber";
                "applicantAddress"; "brokerId"; "annualIncomeBeforeTax";
                "incomingAddress"; "incomingDeposit"; "incomingPrice";
                "incomingStampDuty"; "loanAmount"; "loanDuration";
                "monthlyExpenses"; "outgoingAddress"; "outgoingMortgage";
                "outgoingValuation"; "savingsContribution"; "status";
                "createdAt"; "updatedAt"] ->
        ~ In (f, c) (validate rt Application.properties obj)).
Proof.
  split; [|split].
  - intros f Hf Hnull. cbn [In] in Hf.
    repeat (destruct Hf as [<- | Hf];
            [match type of Hnull with
             | nullish (property_of obj ?g) = true =>
                 eapply (rejected_In _ (g, _)), required_property_reports;
                 [reflexivity | reflexivity | reflexivity | exact Hnull]
             end|]).
    destruct Hf.
  - intros f Hf Hnull c. cbn [In] in Hf.
    destruct Hf as [<- | [<- | []]].
    + rewrite (in_validate_Application rt obj "brokerId" c _ eq_refl).
      rewrite in_validateProperty, Hnull. intros (H & _). discriminate H.
    + rewrite (in_validate_Application rt obj "updatedAt" c _ eq_refl).
      rewrite in_validateProperty, Hnull. intros (H & _). discriminate H.
  - intros f c. apply unchecked_property.
Qed.

(** ** Numeric properties of the entity *)

Lemma Qred_inject_Z_den (z : Z) : Qden (Qred (inject_Z z)) = 1%positive.
Proof.
  unfold Qred, inject_Z.
  pose proof (Z.ggcd_gcd z 1) as Hg.
  pose proof (Z.ggcd_correct_divisors z 1) as Hd.
  destruct (Z.ggcd z 1) as [g [a b]]. simpl in *.
  rewrite Z.gcd_1_r in Hg. subst g. destruct Hd as [_ Hb].
  assert (b = 1) by lia. now subst b.
Qed.

Lemma integer_number (q : Qc) :
  Pos.eqb (Qden (this q)) 1 = true <-> exists z : Z, q = Q2Qc (inject_Z z).
Proof.
  rewrite Pos.eqb_eq. split.
  - intros Hden. destruct q as [[n d] Hcanon]. simpl in Hden. subst d.
    exists n. apply Qc_is_canon. simpl. symmetry. apply Qred_correct.
  - intros [z ->]. simpl. apply Qred_inject_Z_den.
Qed.

Lemma check_IsInt_JsInt (rt : Runtime) (z : Z) : check rt IsInt (JsInt z) = true.
Proof. unfold JsInt. cbn [check]. apply integer_number. now exists z. Qed.

Lemma number_field_validation (rt : Runtime) (obj : gmap string JsValue)
    (f : string) (p : Property) :
  find_property Application.properties f = Some p ->
  p_constraints p = [IsNumber] -> p_optional p = false ->
  (forall c : Constraint, ~ In (f, c) (validate rt Application.properties obj))
  <-> exists q : Qc, property_of obj f = JsNumber (Finite q).
Proof.
  intros Hfind Hcs Hopt.
  setoid_rewrite (in_validate_Application rt obj f _ p Hfind).
  setoid_rewrite in_validateProperty. rewrite Hcs, Hopt. cbn [andb In].
  split.
  - intros H.
    destruct (property_of obj f) as [| | b | [| neg | q] | s | t | xs];
      try (exfalso; apply (H IsNumber); repeat split; auto; fail).
    now exists q.
  - intros [q ->] c (_ & [<- | []] & Hcheck). discriminate Hcheck.
Qed.

(** X11: each of the nine monetary properties and [loanDuration] passes
    exactly when its value is a finite number: a numeric string, [NaN], an
    infinity, [null] or a missing value fails, and a fractional
    [loanDuration] passes although its column is an INTEGER.  [brokerId]
    passes exactly when it is missing, [null] or an integer. *)
Theorem entity_numeric_fields (rt : Runtime) (obj : gmap string JsValue) :
  (forall f : string,
     In f ["annualIncomeBeforeTax"; "incomingDeposit"; "incomingPrice";
           "incomingStampDuty"; "loanAmount"; "loanDuration";
           "monthlyExpenses"; "outgoingMortgage"; "outgoingValuation";
           "savingsContribution"] ->
     (forall c : Constraint, ~ In (f, c) (validate rt Application.properties obj))
     <-> exists q : Qc, property_of obj f = JsNumber (Finite q))
  /\ ((forall c : Constraint,
         ~ In ("brokerId", c) (validate rt Application.properties obj))
      <-> nullish (property_of obj "brokerId") = true
          \/ exists z : Z, property_of obj "brokerId" = JsInt z).
Proof.
  split.
  - intros f Hf. cbn [In] in Hf.
    repeat (destruct Hf as [<- | Hf];
            [eapply number_field_validation; reflexivity|]).
    destruct Hf.
  - setoid_rewrite (in_validate_Application rt obj "brokerId" _ _ eq_refl).
    setoid_rewrite in_validateProperty.
    cbn [p_optional p_constraints plain_property Application.optional andb In].
    split.
    + intros H. destruct (nullish (property_of obj "brokerId")) eqn:Hnull; [now left|].
      right.
      destruct (property_of obj "brokerId") as [| | b | [| neg | q] | s | t | xs];
        try discriminate Hnull;
        try (exfalso; apply (H IsInt); repeat split; auto; fail).
      destruct (Pos.eqb (Qden (this q)) 1) eqn:Hden.
      * apply integer_number in Hden as [z ->]. now exists z.
      * exfalso. apply (H IsInt). repeat split; auto.
    + intros [Hnull | [z Hz]] c (Hopt & [<- | []] & Hcheck).
      * rewrite Hnull in Hopt. discriminate Hopt.
      * rewrite Hz, check_IsInt_JsInt in Hcheck. discriminate Hcheck.
Qed.

Example numeric_examples :
  let obj v := <["loanDuration" := v]> (Application.dataValues example_application) in
  validate example_runtime Application.properties
    (obj (JsNumber (Finite (Q2Qc (25 # 2))))) = []
  /\ validate example_runtime Application.properties (obj (JsString "12"))
     = [("loanDuration", IsNumber)]
  /\ validate example_runtime Application.properties (obj (JsNumber NaN))
     = [("loanDuration", IsNumber)]
  /\ validate example_runtime Application.properties
       (<["brokerId" := JsNumber (Finite (Q2Qc (3 # 2)))]>
          (Application.dataValues example_application))
     = [("brokerId", IsInt)].
Proof. cbv zeta. repeat split; vm_compute; reflexivity. Qed.

(** ** The columns of the attributes *)

(** X16: two different attributes are stored in the same column only if
    they are [outgoingMortgage] and [outgoingValuation]; every other
    attribute has a column no other attribute uses. *)
Theorem only_outgoing_valuation_is_shared (p q : Property) (col : string) :
  In p Application.properties -> In q Application.properties ->
  p_name p <> p_name q ->
  Application.column_name p = Some col -> Application.column_name q = Some col ->
  col = "outgoing_valuation"
  /\ (p_name p = "outgoingMortgage" /\ p_name q = "outgoingValuation"
      \/ p_name p = "outgoingValuation" /\ p_name q = "outgoingMortgage").
Proof.
  intros Hp Hq Hne Hcp Hcq.
  assert (Hall : Forall (fun a : Property => Forall (fun b : Property =>
            Application.column_name a = Application.column_name b ->
            Application.column_name a = None \/ p_name a = p_name b
            \/ Application.column_name a = Some "outgoing_valuation"
               /\ (p_name a = "outgoingMortgage" /\ p_name b = "outgoingValuation"
                   \/ p_name a = "outgoingValuation" /\ p_name b = "outgoingMortgage"))
            Application.properties) Application.properties).
  { apply (bool_decide_unpack _). vm_compute. exact I. }
  rewrite Forall_forall in Hall. specialize (Hall p Hp).
  rewrite Forall_forall in Hall. specialize (Hall q Hq).
  destruct Hall as [Hnone | [Hsame | [Hcol Hnames]]]; try congruence.
  split; [congruence | exact Hnames].
Qed.

Lemma only_outgoing_valuation_is_shared_witness :
  p_name (plain_property "outgoingMortgage" [IsNumber] false false
            (column (DECIMAL 10 2) "outgoing_valuation"))
  <> p_name (plain_property "outgoingValuation" [IsNumber] false false
               (column (DECIMAL 10 2) "outgoing_valuation"))
  /\ "outgoing_valuation" = "outgoing_valuation".
Proof.
  split; [discriminate|].
  refine (proj1 (only_outgoing_valuation_is_shared
    (plain_property "outgoingMortgage" [IsNumber] false false
       (column (DECIMAL 10 2) "outgoing_valuation"))
    (plain_property "outgoingValuation" [IsNumber] false false
       (column (DECIMAL 10 2) "outgoing_valuation"))
    "outgoing_valuation" _ _ _ eq_refl eq_refl)).
  - vm_compute. tauto.
  - vm_compute. tauto.
  - discriminate.
Defined.

(** ** The display identifier, further *)

Lemma is_digit_digit_char (d : Z) : 0 <= d < 10 -> is_digit (digit_char d) = true.
Proof.
  intros Hd. unfold is_digit, digit_char.
  rewrite nat_ascii_embedding by lia.
  apply andb_true_intro. split; apply Nat.leb_le; lia.
Qed.

Lemma all_digits_app (s t : string) :
  all_digits (s ++ t) = all_digits s && all_digits t.
Proof.
  unfold all_digits. induction s as [|c s IH]; [reflexivity|].
  rewrite append_cons. cbn [list_ascii_of_string forallb].
  now rewrite IH, andb_assoc.
Qed.

Lemma all_digits_digits_go (fuel : nat) : forall (n : Z) (acc : string),
  0 <= n -> all_digits acc = true -> all_digits (digits_go fuel n acc) = true.
Proof.
  assert (Hstep : forall (n : Z) (acc : string), 0 <= n -> all_digits acc = true ->
            all_digits (String (digit_char (n mod 10)) acc) = true).
  { intros n acc Hn Hacc. unfold all_digits in *.
    cbn [list_ascii_of_string forallb].
    rewrite is_digit_digit_char by (apply Z.mod_pos_bound; lia). exact Hacc. }
  induction fuel as [|fuel IH]; intros n acc Hn Hacc; cbn [digits_go].
  - now apply Hstep.
  - destruct (Z.ltb n 10); [now apply Hstep|].
    apply IH; [apply Z.div_pos; lia | now apply Hstep].
Qed.

Lemma all_digits_decimal (n : Z) : 0 <= n -> all_digits (decimal n) = true.
Proof. intros Hn. now apply all_digits_digits_go. Qed.

Lemma all_digits_zeros (n : nat) : all_digits (zeros n) = true.
Proof. induction n as [|n IH]; [reflexivity | exact IH]. Qed.

(** X17: for a key that is not negative and that a JavaScript number holds
    exactly (up to [MAX_SAFE_INTEGER]) the identifier is ["A"] followed by
    decimal digits only, as many as the key has and never fewer than five,
    and the digits read back as the key. *)
Theorem applicationId_digits (this : Application.Instance) (k : Z) :
  Application.id this = Some k -> 0 <= k <= MAX_SAFE_INTEGER ->
  exists digits : string,
    Application.applicationId this = Return ("A" ++ digits)
    /\ String.length digits = Nat.max 5 (String.length (decimal k))
    /\ all_digits digits = true
    /\ digits_value 0 digits = k.
Proof.
  intros Hid [Hk _]. pose proof (applicationId_unfold this k Hid) as Hthis.
  rewrite Z_toString_nonneg in Hthis by assumption.
  exists (zeros (5 - String.length (decimal k)) ++ decimal k).
  split; [exact Hthis|]. split; [|split].
  - rewrite string_length_app, zeros_length. lia.
  - now rewrite all_digits_app, all_digits_zeros, all_digits_decimal.
  - rewrite digits_value_zeros. now apply decimal_value.
Qed.

Lemma applicationId_digits_witness :
  Application.id example_application = Some 7
  /\ 0 <= 7 <= MAX_SAFE_INTEGER
  /\ exists digits : string,
       Application.applicationId example_application = Return ("A" ++ digits)
       /\ String.length digits = Nat.max 5 (String.length (decimal 7))
       /\ all_digits digits = true
       /\ digits_value 0 digits = 7.
Proof.
  split; [reflexivity|]. split; [unfold MAX_SAFE_INTEGER; lia|].
  apply (applicationId_digits example_application 7);
    [reflexivity | unfold MAX_SAFE_INTEGER; lia].
Defined.

(** X18: applications with different keys, none negative, have different
    identifiers. *)
Theorem applicationId_injective (a b : Application.Instance) (ka kb : Z) :
  Application.id a = Some ka -> Application.id b = Some kb ->
  0 <= ka -> 0 <= kb -> ka <> kb ->
  Application.applicationId a <> Application.applicationId b.
Proof.
  intros Ha Hb Hka Hkb Hne Heq. apply Hne.
  rewrite (applicationId_unfold a ka Ha), (applicationId_unfold b kb Hb) in Heq.
  rewrite !Z_toString_nonneg in Heq by assumption.
  assert (Hinj : forall x y : string,
            Return ("A" ++ x) = Return ("A" ++ y) :> Result string -> x = y)
    by (intros x y H; now injection H).
  apply Hinj in Heq as Hdigits.
  apply (f_equal (digits_value 0)) in Hdigits.
  rewrite !digits_value_zeros, !decimal_value in Hdigits by assumption.
  exact Hdigits.
Qed.

Lemma applicationId_injective_witness :
  Application.id example_application = Some 7
  /\ Application.id (with_key example_application 100007) = Some 100007
  /\ Application.applicationId example_application
     <> Application.applicationId (with_key example_application 100007).
Proof.
  split; [reflexivity|]. split; [reflexivity|].
  apply (applicationId_injective example_application
           (with_key example_application 100007) 7 100007);
    [reflexivity | reflexivity | lia | lia | lia].
Defined.

Example applicationId_examples :
  Application.applicationId (with_key example_application 0) = Return "A00000"
  /\ Application.applicationId (with_key example_application 99999) = Return "A99999"
  /\ Application.applicationId (with_key example_application 100000) = Return "A100000"
  /\ Application.applicationId (with_key example_application (-5)) = Return "A000-5".
Proof. repeat split; reflexivity. Qed.
